(** * ZatcaScanner: the ZATCA QR payload parser

    A shallow embedding of [client/src/lib/zatca-parser.ts]
    ([parseZATCAQR] and [isValidZATCAQR]) together with the JavaScript
    built-ins the parser calls, and the properties of the TLV decoding
    pipeline that the specification states about it.

    Conventions of the embedding:
    - a JavaScript string is the list of its UTF-16 code units ([list N]);
    - a JavaScript number used as an index or a character code is an [N]
      (the parser only ever forms non-negative integers there);
    - a JavaScript number holding an amount is an IEEE 754 binary64 value,
      taken from the Standard Library's [spec_float] with its
      round-to-nearest-even operations;
    - [undefined] in the partially filled record is [None];
    - [Date.now()] is an argument of the parser. *)

From Stdlib Require Import NArith ZArith List Bool Lia String Ascii.
From Stdlib Require Import DecimalN Permutation.
From Stdlib Require Import Floats.SpecFloat.
Import ListNotations.

Local Open Scope N_scope.

(** ** JavaScript built-ins used by the parser *)

Module JS.

(** A string is the sequence of its UTF-16 code units. *)
Definition jsstring : Type := list N.

(** An ASCII literal as a JavaScript string. *)
Definition lit (s : string) : jsstring :=
  List.map N_of_ascii (list_ascii_of_string s).

(** [s.length] *)
Definition length (s : jsstring) : N := N.of_nat (List.length s).

(** [s.charCodeAt(i)]: the code unit at index [i]; JavaScript answers NaN
    for an index outside the string, which is [None] here. *)
Definition charCodeAt (s : jsstring) (i : N) : option N :=
  nth_error s (N.to_nat i).

(** [s.substring(start, end)]: both indices are clamped to the length of
    the string and swapped when [start] is larger than [end]. *)
Definition substring (s : jsstring) (start finish : N) : jsstring :=
  let intStart := N.min start (length s) in
  let intEnd := N.min finish (length s) in
  let from := N.min intStart intEnd in
  let to := N.max intStart intEnd in
  firstn (N.to_nat (to - from)) (skipn (N.to_nat from) s).

(** [s.split(sep)] for a separator of one code unit: the pieces between
    the occurrences of [sep]; there is always at least one piece. *)
Fixpoint split (sep : N) (s : jsstring) : list jsstring :=
  match s with
  | [] => [[]]
  | c :: rest =>
      if c =? sep then [] :: split sep rest
      else match split sep rest with
           | piece :: pieces => (c :: piece) :: pieces
           | [] => [[c]]
           end
  end.

(** *** Numbers *)

(** A JavaScript number: an IEEE 754 binary64 value. *)
Definition number : Type := spec_float.

Definition prec : Z := 53.
Definition emax : Z := 1024.

(** [a - b] on numbers. *)
Definition sub (a b : number) : number := SFsub prec emax a b.

(** ToBoolean on a number: NaN, [+0] and [-0] are falsy. *)
Definition truthyNumber (x : number) : bool :=
  match x with
  | S754_nan | S754_zero _ => false
  | _ => true
  end.

(** ToBoolean on a string: only the empty string is falsy. *)
Definition truthyString (s : jsstring) : bool :=
  match s with
  | [] => false
  | _ :: _ => true
  end.

(** [isNaN(x)] *)
Definition isNaN (x : number) : bool :=
  match x with
  | S754_nan => true
  | _ => false
  end.

(** The binary64 value nearest to [m * 10^e] (ties to even), negated when
    [neg] is set. *)
Definition roundDecimal (neg : bool) (m : N) (e : Z) : number :=
  match m with
  | N0 => S754_zero neg
  | Npos p =>
      match e with
      | Zneg k =>
          SFdiv prec emax (S754_finite neg p 0)
                (S754_finite false (Pos.pow 10 k) 0)
      | Zpos k => binary_round prec emax neg (p * Pos.pow 10 k) 0
      | Z0 => binary_round prec emax neg p 0
      end
  end.

(** The number whose value is the integer [z], when that is
    representable. *)
Definition ofInteger (z : Z) : number := binary_normalize prec emax z 0 false.

(** *** [parseFloat] *)

(** WhiteSpace and LineTerminator code units, which [parseFloat] skips at
    the start of its argument. *)
Definition isStrWhiteSpaceChar (c : N) : bool :=
  ((9 <=? c) && (c <=? 13)) || (c =? 32) || (c =? 160) || (c =? 5760)
  || ((8192 <=? c) && (c <=? 8202)) || (c =? 8232) || (c =? 8233)
  || (c =? 8239) || (c =? 8287) || (c =? 12288) || (c =? 65279).

Definition isDigit (c : N) : bool := (48 <=? c) && (c <=? 57).

(** The longest prefix of [s] whose elements satisfy [p], and the rest. *)
Fixpoint span (p : N -> bool) (s : jsstring) : jsstring * jsstring :=
  match s with
  | [] => ([], [])
  | c :: rest =>
      if p c then let (taken, left) := span p rest in (c :: taken, left)
      else ([], s)
  end.

(** The value of a run of decimal digits. *)
Definition digitsValue (ds : jsstring) : N :=
  fold_left (fun acc c => 10 * acc + (c - 48)) ds 0.

(** Whether [s] starts with [prefix]. *)
Fixpoint startsWith (prefix s : jsstring) : bool :=
  match prefix, s with
  | [], _ => true
  | p :: prefix', c :: s' => (p =? c) && startsWith prefix' s'
  | _ :: _, [] => false
  end.

(** The value of the ExponentPart ([e] or [E], an optional sign, digits) at
    the start of [s]; [0] when [s] does not start with a complete one. *)
Definition scanExponent (s : jsstring) : Z :=
  match s with
  | c :: rest =>
      if (c =? 101) || (c =? 69) then
        let (negative, unsigned) :=
          match rest with
          | d :: rest' =>
              if d =? 45 then (true, rest')
              else if d =? 43 then (false, rest')
              else (false, rest)
          | [] => (false, rest)
          end in
        let (ds, _) := span isDigit unsigned in
        match ds with
        | [] => 0%Z
        | _ :: _ =>
            if negative then (- Z.of_N (digitsValue ds))%Z
            else Z.of_N (digitsValue ds)
        end
      else 0%Z
  | [] => 0%Z
  end.

(** What the longest StrUnsignedDecimalLiteral prefix denotes. *)
Variant literal : Type :=
| LitInfinity
| LitDecimal (mantissa : N) (exponent : Z).

(** The longest prefix of [s] that is a StrUnsignedDecimalLiteral:
    [Infinity], digits with an optional fraction, or a fraction starting
    with the point, each with an optional exponent; [None] when no prefix
    of [s] is one. *)
Definition scanUnsigned (s : jsstring) : option literal :=
  if startsWith (lit "Infinity") s then Some LitInfinity
  else
    let (intPart, afterInt) := span isDigit s in
    match afterInt with
    | c :: afterPoint =>
        if c =? 46 then
          let (fracPart, afterFrac) := span isDigit afterPoint in
          match intPart, fracPart with
          | [], [] => None
          | _, _ =>
              Some (LitDecimal (digitsValue (intPart ++ fracPart))
                      (scanExponent afterFrac
                       - Z.of_nat (List.length fracPart)))
          end
        else
          match intPart with
          | [] => None
          | _ :: _ => Some (LitDecimal (digitsValue intPart)
                              (scanExponent afterInt))
          end
    | [] =>
        match intPart with
        | [] => None
        | _ :: _ => Some (LitDecimal (digitsValue intPart) 0)
        end
    end.

(** [parseFloat(s)]: skip leading white space, read an optional sign and
    the longest decimal literal that follows, and round its value to a
    number; NaN when there is no such literal. *)
Definition parseFloat (s : jsstring) : number :=
  let (_, trimmed) := span isStrWhiteSpaceChar s in
  let (negative, unsigned) :=
    match trimmed with
    | c :: rest =>
        if c =? 45 then (true, rest)
        else if c =? 43 then (false, rest)
        else (false, trimmed)
    | [] => (false, trimmed)
    end in
  match scanUnsigned unsigned with
  | None => S754_nan
  | Some LitInfinity => S754_infinity negative
  | Some (LitDecimal m e) => roundDecimal negative m e
  end.

(** *** [atob] *)

(** ASCII white space, which [atob] removes before decoding. *)
Definition isAsciiWhitespace (c : N) : bool :=
  (c =? 9) || (c =? 10) || (c =? 12) || (c =? 13) || (c =? 32).

(** The six-bit value of a character of the base64 alphabet. *)
Definition base64Value (c : N) : option N :=
  if (65 <=? c) && (c <=? 90) then Some (c - 65)
  else if (97 <=? c) && (c <=? 122) then Some (c - 71)
  else if (48 <=? c) && (c <=? 57) then Some (c + 4)
  else if c =? 43 then Some 62
  else if c =? 47 then Some 63
  else None.

(** The six-bit values of all the characters of [s], when each one is in
    the base64 alphabet. *)
Fixpoint sextets (s : jsstring) : option (list N) :=
  match s with
  | [] => Some []
  | c :: rest =>
      match base64Value c, sextets rest with
      | Some v, Some vs => Some (v :: vs)
      | _, _ => None
      end
  end.

(** Drop one or two [=] from the end of [s]. *)
Definition stripPadding (s : jsstring) : jsstring :=
  match rev s with
  | c1 :: c2 :: r =>
      if c1 =? 61 then if c2 =? 61 then rev r else rev (c2 :: r) else s
  | [c1] => if c1 =? 61 then [] else s
  | [] => s
  end.

(** Bytes of a run of six-bit values: each group of four gives three
    bytes; a final group of two gives one byte and a final group of three
    gives two, the unused low bits being dropped. *)
Fixpoint bytesOfSextets (vs : list N) : list N :=
  match vs with
  | a :: b :: c :: d :: rest =>
      let n := ((a * 64 + b) * 64 + c) * 64 + d in
      n / 65536 :: (n / 256) mod 256 :: n mod 256 :: bytesOfSextets rest
  | [a; b; c] =>
      let n := ((a * 64 + b) * 64 + c) / 4 in
      [n / 256; n mod 256]
  | [a; b] => [(a * 64 + b) / 16]
  | _ => []
  end.

(** Every code unit of a string is a 16-bit value. *)
Definition wellFormed (s : jsstring) : bool :=
  forallb (fun c => c <? 65536) s.

(** [atob(data)], the forgiving base64 decoding of the HTML standard:
    [None] stands for the [InvalidCharacterError] it throws. *)
Definition atob (data : jsstring) : option jsstring :=
  let data1 := filter (fun c => negb (isAsciiWhitespace c)) data in
  let data2 :=
    if length data1 mod 4 =? 0 then stripPadding data1 else data1 in
  if length data2 mod 4 =? 1 then None
  else option_map bytesOfSextets (sextets data2).

End JS.

(** ** The parser ([client/src/lib/zatca-parser.ts]) *)

Module Zatca.

Import JS.

(** The object the parser fills in, [Partial<ZATCAData>]: a property that
    was never assigned is [None].  The record that [parseZATCAQR] returns
    is this same object ([data as ZATCAData]). *)
Record ZATCAData : Type := mkData {
  sellerName : option jsstring;
  vatNumber : option jsstring;
  invoiceNumber : option jsstring;
  invoiceDate : option jsstring;
  subtotal : option number;
  vatAmount : option number;
  totalAmount : option number
}.

(** [const data: Partial<ZATCAData> = {}] *)
Definition emptyData : ZATCAData :=
  mkData None None None None None None None.

(** How a run of the model ends: the function returns, or the model runs
    out of loop iterations, or [charCodeAt] was asked for an index outside
    the string. *)
Variant outcome (A : Type) : Type :=
| Returned (a : A)
| OutOfFuel
| ReadPastEnd.

Arguments Returned {A} a.
Arguments OutOfFuel {A}.
Arguments ReadPastEnd {A}.

(** The inner [try { atob(qrData) } catch { qrData }]. *)
Definition decode (qrData : jsstring) : jsstring :=
  match atob qrData with
  | Some decodedData => decodedData
  | None => qrData
  end.

(** The [switch (tag)] of the loop body. *)
Definition assignField (tag : N) (value : jsstring) (data : ZATCAData)
  : ZATCAData :=
  if tag =? 1 then
    mkData (Some value) (vatNumber data) (invoiceNumber data)
           (invoiceDate data) (subtotal data) (vatAmount data)
           (totalAmount data)
  else if tag =? 2 then
    mkData (sellerName data) (Some value) (invoiceNumber data)
           (invoiceDate data) (subtotal data) (vatAmount data)
           (totalAmount data)
  else if tag =? 3 then
    mkData (sellerName data) (vatNumber data) (invoiceNumber data)
           (nth_error (split 84 value) 0) (subtotal data) (vatAmount data)
           (totalAmount data)
  else if tag =? 4 then
    mkData (sellerName data) (vatNumber data) (invoiceNumber data)
           (invoiceDate data) (subtotal data) (vatAmount data)
           (Some (parseFloat value))
  else if tag =? 5 then
    mkData (sellerName data) (vatNumber data) (invoiceNumber data)
           (invoiceDate data) (subtotal data) (Some (parseFloat value))
           (totalAmount data)
  else data.

(** The [while (position < decodedData.length)] loop; every test of the
    loop condition uses one unit of [fuel]. *)
Fixpoint walk (fuel : nat) (decodedData : jsstring) (position : N)
  (data : ZATCAData) : outcome ZATCAData :=
  match fuel with
  | O => OutOfFuel
  | S fuel' =>
      if position <? length decodedData then
        if length decodedData <=? position + 1 then Returned data
        else
          match charCodeAt decodedData position,
                charCodeAt decodedData (position + 1) with
          | Some tag, Some len =>
              if length decodedData <? position + 2 + len then Returned data
              else
                let value :=
                  substring decodedData (position + 2) (position + 2 + len) in
                walk fuel' decodedData (position + 2 + len)
                     (assignField tag value data)
          | _, _ => ReadPastEnd
          end
      else Returned data
  end.

(** ToBoolean of a property that may be [undefined]. *)
Definition truthyNumberProp (x : option number) : bool :=
  match x with
  | Some n => truthyNumber n
  | None => false
  end.

Definition truthyStringProp (x : option jsstring) : bool :=
  match x with
  | Some s => truthyString s
  | None => false
  end.

(** The decimal digits of a non-negative integer, as [String(n)] writes
    them. *)
Fixpoint uintCodes (d : Decimal.uint) : jsstring :=
  match d with
  | Decimal.Nil => []
  | Decimal.D0 r => 48 :: uintCodes r
  | Decimal.D1 r => 49 :: uintCodes r
  | Decimal.D2 r => 50 :: uintCodes r
  | Decimal.D3 r => 51 :: uintCodes r
  | Decimal.D4 r => 52 :: uintCodes r
  | Decimal.D5 r => 53 :: uintCodes r
  | Decimal.D6 r => 54 :: uintCodes r
  | Decimal.D7 r => 55 :: uintCodes r
  | Decimal.D8 r => 56 :: uintCodes r
  | Decimal.D9 r => 57 :: uintCodes r
  end.

(** [`INV-${now}`] *)
Definition synthesizedInvoiceNumber (now : N) : jsstring :=
  lit "INV-" ++ uintCodes (N.to_uint now).

(** The statements after the loop: the subtotal, the generated invoice
    number and the check of the required fields.  [None] is [null]. *)
Definition finalize (now : N) (data : ZATCAData) : option ZATCAData :=
  let data1 :=
    if truthyNumberProp (totalAmount data) && truthyNumberProp (vatAmount data)
    then
      match totalAmount data, vatAmount data with
      | Some total, Some vat =>
          mkData (sellerName data) (vatNumber data) (invoiceNumber data)
                 (invoiceDate data) (Some (sub total vat)) (vatAmount data)
                 (totalAmount data)
      | _, _ => data
      end
    else data in
  let data2 :=
    if negb (truthyStringProp (invoiceNumber data1)) then
      mkData (sellerName data1) (vatNumber data1)
             (Some (synthesizedInvoiceNumber now))
             (invoiceDate data1) (subtotal data1) (vatAmount data1)
             (totalAmount data1)
    else data1 in
  if truthyStringProp (sellerName data2)
     && truthyStringProp (vatNumber data2)
     && match totalAmount data2 with Some _ => true | None => false end
  then Some data2
  else None.

(** [parseZATCAQR(qrData)], with [now] the value [Date.now()] gives
    during the call.  No call in the outer [try] block throws, so its
    [catch] clause has no counterpart here. *)
Definition parseZATCAQR (now : N) (qrData : jsstring)
  : outcome (option ZATCAData) :=
  let decodedData := decode qrData in
  match walk (S (List.length decodedData)) decodedData 0 emptyData with
  | Returned data => Returned (finalize now data)
  | OutOfFuel => OutOfFuel
  | ReadPastEnd => ReadPastEnd
  end.

(** [isValidZATCAQR(qrData)]: [parseZATCAQR(qrData) !== null]. *)
Definition isValidZATCAQR (now : N) (qrData : jsstring) : outcome bool :=
  match parseZATCAQR now qrData with
  | Returned (Some _) => Returned true
  | Returned None => Returned false
  | OutOfFuel => OutOfFuel
  | ReadPastEnd => ReadPastEnd
  end.

End Zatca.

(** ** TLV streams

    The vocabulary of the specification: a complete field is a tag, the
    length of its value, and the value; a stream is the concatenation of
    complete fields followed by a residue from which no further field can
    be read. *)

Module Tlv.

Import JS Zatca.

Definition field : Type := (N * jsstring)%type.

Definition encodeField (f : field) : jsstring :=
  fst f :: length (snd f) :: snd f.

Definition encode (fs : list field) : jsstring :=
  flat_map encodeField fs.

(** No complete field starts [rest]: fewer than two code units are left,
    or the value is shorter than its header announces. *)
Definition stuck (rest : jsstring) : bool :=
  match rest with
  | _ :: len :: value => length value <? len
  | _ => true
  end.

(** The value of the last field of [fs] that carries [tag]. *)
Fixpoint lastValue (tag : N) (fs : list field) : option jsstring :=
  match fs with
  | [] => None
  | (t, v) :: rest =>
      match lastValue tag rest with
      | Some w => Some w
      | None => if t =? tag then Some v else None
      end
  end.

(** The fields of [fs] that lie wholly within the first [k] code units of
    [encode fs]. *)
Fixpoint completeBefore (k : nat) (fs : list field) : list field :=
  match fs with
  | [] => []
  | f :: rest =>
      let n := List.length (encodeField f) in
      if (n <=? k)%nat then f :: completeBefore (k - n) rest else []
  end.

(** The first of two optional values that is present. *)
Definition orElse {A : Type} (x y : option A) : option A :=
  match x with
  | Some a => Some a
  | None => y
  end.

(** The fields assigned in order to a partially filled record. *)
Definition interpret (fs : list field) (data : ZATCAData) : ZATCAData :=
  fold_left (fun d f => assignField (fst f) (snd f) d) fs data.

(** Whether a tag is one the parser gives a meaning to. *)
Definition recognized (tag : N) : bool := (1 <=? tag) && (tag <=? 5).

End Tlv.

(** ** The record of a scan ([client/src/components/qr-scanner.tsx])

    The object [processQRCode] builds from the parser's answer and hands
    to the storage layer. *)

Module Scanner.

Import JS Zatca.

(** The two values [status] takes: ['valid'] and ['invalid']. *)
Variant scanStatus : Type :=
| valid
| invalid.

(** [InsertScannedQR], with the properties [processQRCode] assigns;
    [None] is [null]. *)
Record InsertScannedQR : Type := mkScanned {
  sessionId : jsstring;
  rawData : jsstring;
  status : scanStatus;
  sellerName : option jsstring;
  vatNumber : option jsstring;
  invoiceNumber : option jsstring;
  invoiceDate : option jsstring;
  subtotal : option jsstring;
  vatAmount : option jsstring;
  totalAmount : option jsstring
}.

(** [parsedData?.property]: [undefined] when [parsedData] is [null]. *)
Definition chain {A : Type} (parsedData : option ZATCAData)
  (property : ZATCAData -> option A) : option A :=
  match parsedData with
  | Some data => property data
  | None => None
  end.

(** [x || null] for a string that may be [undefined]: the empty string
    is falsy. *)
Definition orNull (x : option jsstring) : option jsstring :=
  match x with
  | Some s => if truthyString s then Some s else None
  | None => None
  end.

Section Record.

(** [Number.prototype.toString], which the scanner applies to the
    amounts. *)
Variable numberToString : number -> jsstring.

(** The [qrRecord] object literal of [processQRCode]. *)
Definition qrRecord (session qrData : jsstring)
  (parsedData : option ZATCAData) : InsertScannedQR :=
  mkScanned session qrData
    (match parsedData with Some _ => valid | None => invalid end)
    (orNull (chain parsedData Zatca.sellerName))
    (orNull (chain parsedData Zatca.vatNumber))
    (orNull (chain parsedData Zatca.invoiceNumber))
    (orNull (chain parsedData Zatca.invoiceDate))
    (orNull (option_map numberToString (chain parsedData Zatca.subtotal)))
    (orNull (option_map numberToString (chain parsedData Zatca.vatAmount)))
    (orNull (option_map numberToString
               (chain parsedData Zatca.totalAmount))).

(** The record [processQRCode] builds for a scanned string: the parser's
    answer packed by [qrRecord]. *)
Definition scannedRecord (now : N) (session qrData : jsstring)
  : outcome InsertScannedQR :=
  match parseZATCAQR now qrData with
  | Returned parsedData => Returned (qrRecord session qrData parsedData)
  | OutOfFuel => OutOfFuel
  | ReadPastEnd => ReadPastEnd
  end.

End Record.

End Scanner.

(** ** Sample payloads *)

Module Samples.

Import JS Zatca Tlv.

(** The fields of a complete invoice. *)
Definition invoiceFields : list field :=
  [ (1, lit "Acme Trading Co."); (2, lit "300012345600003");
    (3, lit "2024-03-15T10:30:00Z"); (4, lit "115.00"); (5, lit "15.00") ].

(** The invoice as a QR code carries it: the base64 text of its stream. *)
Definition invoiceQR : jsstring :=
  lit "ARBBY21lIFRyYWRpbmcgQ28uAg8zMDAwMTIzNDU2MDAwMDMDFDIwMjQtMDMtMTVUMTA6MzA6MDBaBAYxMTUuMDAFBTE1LjAw".

(** The same invoice with a field of tag 99 between the VAT number and
    the timestamp. *)
Definition invoiceWithTag99QR : jsstring :=
  lit "ARBBY21lIFRyYWRpbmcgQ28uAg8zMDAwMTIzNDU2MDAwMDNjBwECAwQFBgcDFDIwMjQtMDMtMTVUMTA6MzA6MDBaBAYxMTUuMDAFBTE1LjAw".

(** The same invoice preceded by an older seller name. *)
Definition renamedSellerQR : jsstring :=
  lit "AQhPbGQgTmFtZQEQQWNtZSBUcmFkaW5nIENvLgIPMzAwMDEyMzQ1NjAwMDAzAxQyMDI0LTAzLTE1VDEwOjMwOjAwWgQGMTE1LjAwBQUxNS4wMA==".

(** The raw stream of the invoice cut after 40 code units, in the middle
    of the timestamp. *)
Definition cutInvoiceQR : jsstring := firstn 40 (encode invoiceFields).

(** Seller and VAT number with the total [abc]. *)
Definition textTotalQR : jsstring :=
  lit "AQRBY21lAg8zMDAwMTIzNDU2MDAwMDMEA2FiYw==".

(** Seller and VAT number with the total [N/A], as a raw stream. *)
Definition unavailableTotalQR : jsstring :=
  encode [ (1, lit "Acme"); (2, lit "300012345600003"); (4, lit "N/A") ].

(** A zero-rated invoice: total [115.00], VAT [0.00]. *)
Definition zeroVatQR : jsstring :=
  lit "AQRBY21lAg8zMDAwMTIzNDU2MDAwMDMEBjExNS4wMAUEMC4wMA==".

(** A raw stream whose first field announces a value of 300 code units. *)
Definition longSellerQR : jsstring :=
  1 :: 300 :: repeat 65 300
    ++ encode [ (2, lit "300012345600003"); (4, lit "115.00") ].

End Samples.

(** ** Properties *)

Import JS Zatca Tlv Samples.

(** *** Strings *)

Section Strings.

Lemma length_app (a b : jsstring) : length (a ++ b) = length a + length b.
Proof. unfold length. rewrite List.length_app. lia. Qed.

Lemma length_cons (c : N) (s : jsstring) : length (c :: s) = 1 + length s.
Proof. unfold length. simpl List.length. lia. Qed.

Lemma charCodeAt_app (pre s : jsstring) (i : N) :
  charCodeAt (pre ++ s) (length pre + i) = charCodeAt s i.
Proof.
  unfold charCodeAt, length.
  replace (N.to_nat (N.of_nat (List.length pre) + i))
    with (List.length pre + N.to_nat i)%nat by lia.
  rewrite nth_error_app2 by lia. f_equal. lia.
Qed.

Lemma charCodeAt_app0 (pre s : jsstring) :
  charCodeAt (pre ++ s) (length pre) = charCodeAt s 0.
Proof.
  rewrite <- (charCodeAt_app pre s 0). f_equal. lia.
Qed.

Lemma charCodeAt_inside (s : jsstring) (i : N) :
  i < length s -> exists c, charCodeAt s i = Some c.
Proof.
  unfold charCodeAt, length. intros H.
  destruct (nth_error s (N.to_nat i)) as [c|] eqn:E.
  - now exists c.
  - apply nth_error_None in E. lia.
Qed.

Lemma charCodeAt_In (s : jsstring) (i c : N) :
  charCodeAt s i = Some c -> In c s.
Proof. unfold charCodeAt. apply nth_error_In. Qed.

(** Inside the string, [substring] is the plain slice. *)
Lemma substring_slice (s : jsstring) (a b : N) :
  a <= b -> b <= length s ->
  substring s a b = firstn (N.to_nat (b - a)) (skipn (N.to_nat a) s).
Proof.
  intros Hab Hb. unfold substring.
  rewrite (N.min_l a) by lia. rewrite (N.min_l b) by lia.
  rewrite N.min_l by lia. rewrite N.max_r by lia. reflexivity.
Qed.

Lemma substring_length (s : jsstring) (a b : N) :
  a <= b -> b <= length s -> length (substring s a b) = b - a.
Proof.
  intros Hab Hb. rewrite substring_slice by assumption.
  unfold length in *. rewrite length_firstn, length_skipn. lia.
Qed.

Lemma substring_app (pre v post : jsstring) :
  substring (pre ++ v ++ post) (length pre) (length pre + length v) = v.
Proof.
  rewrite substring_slice.
  - unfold length.
    replace (N.to_nat (N.of_nat (List.length pre))) with (List.length pre) by lia.
    rewrite skipn_app, skipn_all, Nat.sub_diag. simpl.
    replace (N.to_nat _) with (List.length v) by lia.
    rewrite firstn_app, firstn_all, Nat.sub_diag. simpl.
    apply app_nil_r.
  - lia.
  - rewrite !length_app. lia.
Qed.

End Strings.

(** *** The walk over a stream of complete fields *)

(** Settles the truth value of a comparison of the loop from the
    arithmetic facts at hand. *)
Ltac compare_by_lia :=
  symmetry;
  first [ apply N.ltb_lt; lia | apply N.ltb_ge; lia
        | apply N.leb_le; lia | apply N.leb_gt; lia ].

Section Walk.

Lemma encode_cons (f : field) (fs : list field) :
  encode (f :: fs) = encodeField f ++ encode fs.
Proof. reflexivity. Qed.

Lemma encode_app (fs gs : list field) :
  encode (fs ++ gs) = encode fs ++ encode gs.
Proof. unfold encode. apply flat_map_app. Qed.

Lemma interpret_app (fs gs : list field) (d : ZATCAData) :
  interpret (fs ++ gs) d = interpret gs (interpret fs d).
Proof. unfold interpret. apply fold_left_app. Qed.

Lemma length_encode (fs : list field) :
  (2 * List.length fs <= List.length (encode fs))%nat.
Proof.
  induction fs as [|[t v] fs IH]; simpl; [lia|].
  rewrite List.length_app. lia.
Qed.

(** At a residue the loop stops and returns what it has collected. *)
Lemma walk_stuck (fuel : nat) (pre rest : jsstring) (d : ZATCAData) :
  stuck rest = true ->
  walk (S fuel) (pre ++ rest) (length pre) d = Returned d.
Proof.
  intros Hst. cbn [walk]. rewrite length_app.
  destruct rest as [|c [|l v]].
  - replace (length pre <? length pre + length []) with false
      by (change (length []) with 0; compare_by_lia).
    reflexivity.
  - rewrite length_cons.
    replace (length pre <? _) with true by compare_by_lia.
    replace (_ <=? _) with true
      by (change (length []) with 0; compare_by_lia).
    reflexivity.
  - simpl in Hst. apply N.ltb_lt in Hst.
    rewrite !length_cons.
    replace (length pre <? _) with true by compare_by_lia.
    replace (_ <=? _) with false by compare_by_lia.
    rewrite charCodeAt_app0, charCodeAt_app.
    change (charCodeAt (c :: l :: v) 0) with (Some c).
    change (charCodeAt (c :: l :: v) 1) with (Some l). cbv iota beta.
    replace (_ <? _) with true by compare_by_lia.
    reflexivity.
Qed.

(** Over a complete field the loop assigns it and moves behind it. *)
Lemma walk_field (fuel : nat) (pre rest : jsstring) (f : field)
  (d : ZATCAData) :
  walk (S fuel) (pre ++ encodeField f ++ rest) (length pre) d
  = walk fuel ((pre ++ encodeField f) ++ rest) (length (pre ++ encodeField f))
         (assignField (fst f) (snd f) d).
Proof.
  destruct f as [t v]. unfold encodeField. simpl fst. simpl snd.
  cbn [walk].
  change ((t :: length v :: v) ++ rest) with (t :: length v :: v ++ rest).
  repeat (rewrite length_app || rewrite length_cons).
  replace (length pre <? _) with true by compare_by_lia.
  replace (_ <=? length pre + 1) with false by compare_by_lia.
  rewrite charCodeAt_app0, charCodeAt_app.
  change (charCodeAt (t :: length v :: v ++ rest) 0) with (Some t).
  change (charCodeAt (t :: length v :: v ++ rest) 1) with (Some (length v)).
  cbv iota beta.
  replace (_ <? length pre + 2 + length v) with false by compare_by_lia.
  rewrite <- app_assoc.
  change ((t :: length v :: v) ++ rest) with (t :: length v :: v ++ rest).
  replace (substring _ _ _) with v.
  - f_equal. lia.
  - change (pre ++ t :: length v :: v ++ rest)
      with (pre ++ [t; length v] ++ v ++ rest).
    rewrite app_assoc.
    replace (length pre + 2) with (length (pre ++ [t; length v]))
      by (rewrite length_app; unfold length; simpl; lia).
    symmetry. apply substring_app.
Qed.

Lemma walk_encode (fs : list field) :
  forall (fuel : nat) (pre rest : jsstring) (d : ZATCAData),
    stuck rest = true ->
    (List.length fs < fuel)%nat ->
    walk fuel (pre ++ encode fs ++ rest) (length pre) d
    = Returned (interpret fs d).
Proof.
  induction fs as [|f fs IH]; intros fuel pre rest d Hst Hfuel.
  - destruct fuel as [|fuel]; [simpl in Hfuel; lia|].
    now apply walk_stuck.
  - destruct fuel as [|fuel]; [simpl in Hfuel; lia|].
    rewrite encode_cons, <- app_assoc, walk_field.
    change (interpret (f :: fs) d)
      with (interpret fs (assignField (fst f) (snd f) d)).
    apply IH; [assumption | simpl in Hfuel; lia].
Qed.

(** The parser on a stream of complete fields followed by a residue. *)
Lemma parse_encode (now : N) (qrData : jsstring) (fs : list field)
  (rest : jsstring) :
  decode qrData = encode fs ++ rest ->
  stuck rest = true ->
  parseZATCAQR now qrData = Returned (finalize now (interpret fs emptyData)).
Proof.
  intros Hdec Hst. unfold parseZATCAQR. rewrite Hdec.
  rewrite (walk_encode fs _ [] rest emptyData Hst).
  - reflexivity.
  - rewrite List.length_app. pose proof (length_encode fs). lia.
Qed.

End Walk.

(** *** Every string is a stream *)

Section Streams.

Lemma stuck_short (rest : jsstring) :
  (List.length rest < 2)%nat -> stuck rest = true.
Proof.
  destruct rest as [|c [|l v]]; simpl; intros H; try reflexivity; lia.
Qed.

Lemma decompose_bounded (n : nat) :
  forall s : jsstring, (List.length s <= n)%nat ->
    exists fs rest, s = encode fs ++ rest /\ stuck rest = true.
Proof.
  induction n as [|n IH]; intros s Hn.
  - exists [], s. split; [reflexivity|]. apply stuck_short. lia.
  - destruct s as [|c [|l v]].
    + exists [], []. now split.
    + exists [], [c]. now split.
    + destruct (length v <? l) eqn:E.
      * exists [], (c :: l :: v). now split.
      * apply N.ltb_ge in E. unfold length in E.
        destruct (IH (skipn (N.to_nat l) v)) as (fs & rest & Heq & Hst).
        { rewrite length_skipn. simpl in Hn. lia. }
        exists ((c, firstn (N.to_nat l) v) :: fs), rest. split; [|assumption].
        rewrite encode_cons. unfold encodeField, length. simpl.
        rewrite length_firstn, Nat.min_l by lia.
        rewrite N2Nat.id. do 2 f_equal.
        rewrite <- app_assoc, <- Heq. symmetry. apply firstn_skipn.
Qed.

(** Any string is a run of complete fields followed by a residue. *)
Lemma decompose (s : jsstring) :
  exists fs rest, s = encode fs ++ rest /\ stuck rest = true.
Proof. apply (decompose_bounded (List.length s)). lia. Qed.

Lemma stuck_cut_field (k : nat) (f : field) :
  (k < List.length (encodeField f))%nat ->
  stuck (firstn k (encodeField f)) = true.
Proof.
  destruct f as [t v]. unfold encodeField. simpl fst. simpl snd.
  intros Hk. destruct k as [|[|k]]; try reflexivity.
  simpl. apply N.ltb_lt. unfold length. rewrite length_firstn.
  simpl in Hk. lia.
Qed.

(** Cutting a stream of complete fields leaves the fields that lie before
    the cut, followed by a residue. *)
Lemma truncate_encode (fs : list field) :
  forall k : nat, exists rest,
    firstn k (encode fs) = encode (completeBefore k fs) ++ rest
    /\ stuck rest = true.
Proof.
  induction fs as [|f fs IH]; intros k.
  - exists []. split; [now rewrite firstn_nil | reflexivity].
  - rewrite encode_cons, firstn_app. cbn [completeBefore].
    destruct (Nat.leb_spec (List.length (encodeField f)) k) as [Hle|Hlt].
    + destruct (IH (k - List.length (encodeField f))%nat) as (rest & Heq & Hst).
      exists rest. split; [|assumption].
      rewrite firstn_all2 by assumption.
      rewrite encode_cons, <- app_assoc. now f_equal.
    + exists (firstn k (encodeField f)). split.
      * replace (k - List.length (encodeField f))%nat with 0%nat by lia.
        simpl. now rewrite app_nil_r.
      * now apply stuck_cut_field.
Qed.

End Streams.

(** *** What the fields leave in the record *)

Section Interpretation.

(** The record after a run of fields: each property holds the transformed
    value of the last field with its tag, or what it held before. *)
Lemma interpret_fields (fs : list field) :
  forall d : ZATCAData,
    interpret fs d =
    mkData (orElse (lastValue 1 fs) (sellerName d))
           (orElse (lastValue 2 fs) (vatNumber d))
           (invoiceNumber d)
           (match lastValue 3 fs with
            | Some v => nth_error (split 84 v) 0
            | None => invoiceDate d
            end)
           (subtotal d)
           (orElse (option_map parseFloat (lastValue 5 fs)) (vatAmount d))
           (orElse (option_map parseFloat (lastValue 4 fs)) (totalAmount d)).
Proof.
  induction fs as [|[t v] fs IH]; intros d.
  - now destruct d.
  - change (interpret ((t, v) :: fs) d)
      with (interpret fs (assignField t v d)).
    rewrite IH. cbn [lastValue]. unfold assignField.
    destruct (lastValue 1 fs), (lastValue 2 fs), (lastValue 3 fs),
      (lastValue 4 fs), (lastValue 5 fs);
      destruct (N.eqb_spec t 1) as [->|];
      try destruct (N.eqb_spec t 2) as [->|];
      try destruct (N.eqb_spec t 3) as [->|];
      try destruct (N.eqb_spec t 4) as [->|];
      try destruct (N.eqb_spec t 5) as [->|];
      reflexivity.
Qed.

(** A field with a tag outside 1..5 leaves the record as it is. *)
Lemma assignField_unrecognized (t : N) (v : jsstring) (d : ZATCAData) :
  recognized t = false -> assignField t v d = d.
Proof.
  unfold recognized, assignField. intros H.
  destruct (N.eqb_spec t 1); [subst; discriminate|].
  destruct (N.eqb_spec t 2); [subst; discriminate|].
  destruct (N.eqb_spec t 3); [subst; discriminate|].
  destruct (N.eqb_spec t 4); [subst; discriminate|].
  destruct (N.eqb_spec t 5); [subst; discriminate|].
  reflexivity.
Qed.

Lemma lastValue_app (tag : N) (fs gs : list field) :
  lastValue tag (fs ++ gs) = orElse (lastValue tag gs) (lastValue tag fs).
Proof.
  induction fs as [|[t v] fs IH]; simpl.
  - now destruct (lastValue tag gs).
  - rewrite IH. destruct (lastValue tag gs), (lastValue tag fs); reflexivity.
Qed.

(** The first piece of a split is what stands before the first separator. *)
Lemma split_first (sep : N) (before after : jsstring) :
  ~ In sep before ->
  nth_error (split sep (before ++ sep :: after)) 0 = Some before.
Proof.
  induction before as [|c before IH]; intros Hnot; simpl.
  - now rewrite N.eqb_refl.
  - destruct (N.eqb_spec c sep) as [->|Hne].
    + exfalso. apply Hnot. now left.
    + assert (Hrest : ~ In sep before) by (intros H; apply Hnot; now right).
      specialize (IH Hrest).
      destruct (split sep (before ++ sep :: after)) as [|piece pieces];
        simpl in *; [discriminate|].
      now inversion IH.
Qed.

End Interpretation.

(** *** [atob] yields bytes *)

Section Bytes.

Lemma base64Value_bound (c v : N) : base64Value c = Some v -> v < 64.
Proof.
  unfold base64Value.
  destruct (N.leb_spec 65 c), (N.leb_spec c 90); simpl;
    try (intros [= <-]; lia);
    destruct (N.leb_spec 97 c), (N.leb_spec c 122); simpl;
    try (intros [= <-]; lia);
    destruct (N.leb_spec 48 c), (N.leb_spec c 57); simpl;
    try (intros [= <-]; lia);
    destruct (c =? 43); try (intros [= <-]; lia);
    destruct (c =? 47); try (intros [= <-]; lia); discriminate.
Qed.

Lemma sextets_bound (s : jsstring) :
  forall vs, sextets s = Some vs -> Forall (fun v => v < 64) vs.
Proof.
  induction s as [|c s IH]; simpl; intros vs.
  - intros [= <-]. constructor.
  - destruct (base64Value c) as [v|] eqn:Ev; [|discriminate].
    destruct (sextets s) as [ws|]; [|discriminate].
    intros [= <-]. constructor; [now apply base64Value_bound in Ev | now apply IH].
Qed.

Lemma bytesOfSextets_bound_upto (n : nat) :
  forall vs, (List.length vs <= n)%nat ->
    Forall (fun v => v < 64) vs ->
    Forall (fun b => b < 256) (bytesOfSextets vs).
Proof.
  induction n as [|n IH]; intros vs Hn Hvs.
  - destruct vs; [constructor | simpl in Hn; lia].
  - destruct vs as [|a [|b [|c [|d rest]]]]; simpl.
    + constructor.
    + constructor.
    + inversion Hvs as [|? ? Ha H1]; subst. inversion H1 as [|? ? Hb H2]; subst.
      constructor; [|constructor]. cbv beta.
      apply N.Div0.div_lt_upper_bound. lia.
    + inversion Hvs as [|? ? Ha H1]; subst. inversion H1 as [|? ? Hb H2]; subst.
      inversion H2 as [|? ? Hc H3]; subst.
      repeat constructor; cbv beta.
      * apply N.Div0.div_lt_upper_bound.
        apply N.Div0.div_lt_upper_bound. lia.
      * apply N.mod_lt. lia.
    + inversion Hvs as [|? ? Ha H1]; subst. inversion H1 as [|? ? Hb H2]; subst.
      inversion H2 as [|? ? Hc H3]; subst. inversion H3 as [|? ? Hd H4]; subst.
      constructor; [|constructor; [|constructor]]; cbv beta.
      * apply N.Div0.div_lt_upper_bound. lia.
      * apply N.mod_lt. lia.
      * apply N.mod_lt. lia.
      * apply IH; [simpl in Hn; lia | assumption].
Qed.

(** What [atob] returns is a binary string: every code unit is a byte. *)
Lemma atob_bytes (data decoded : jsstring) :
  atob data = Some decoded -> Forall (fun b => b < 256) decoded.
Proof.
  unfold atob.
  set (data2 := if _ =? 0 then _ else _).
  destruct (_ =? 1); [discriminate|].
  destruct (sextets data2) as [vs|] eqn:E; [|discriminate].
  intros [= <-].
  apply (bytesOfSextets_bound_upto (List.length vs)); [lia|].
  now apply sextets_bound with data2.
Qed.

Lemma wellFormed_Forall (s : jsstring) :
  wellFormed s = true -> Forall (fun c => c < 65536) s.
Proof.
  unfold wellFormed. rewrite forallb_forall, Forall_forall.
  intros H c Hc. apply N.ltb_lt. now apply H.
Qed.

(** The decoded data is a string of bytes when [atob] succeeded and the
    scanned string itself otherwise. *)
Lemma decode_units (qrData : jsstring) :
  wellFormed qrData = true -> Forall (fun c => c < 65536) (decode qrData).
Proof.
  intros Hwf. unfold decode.
  destruct (atob qrData) as [decoded|] eqn:E.
  - apply atob_bytes in E. eapply Forall_impl; [|exact E].
    simpl. intros. lia.
  - now apply wellFormed_Forall.
Qed.

End Bytes.

(** *** The statements after the loop *)

Section Finalize.

Variable now : N.

(** What a returned record holds, in terms of the record the loop left. *)
Lemma finalize_Some (d r : ZATCAData) :
  finalize now d = Some r ->
  truthyStringProp (sellerName d) = true
  /\ truthyStringProp (vatNumber d) = true
  /\ totalAmount d <> None
  /\ sellerName r = sellerName d
  /\ vatNumber r = vatNumber d
  /\ invoiceDate r = invoiceDate d
  /\ vatAmount r = vatAmount d
  /\ totalAmount r = totalAmount d
  /\ invoiceNumber r
     = (if truthyStringProp (invoiceNumber d) then invoiceNumber d
        else Some (synthesizedInvoiceNumber now))
  /\ subtotal r
     = match totalAmount d, vatAmount d with
       | Some total, Some vat =>
           if truthyNumber total && truthyNumber vat
           then Some (sub total vat) else subtotal d
       | _, _ => subtotal d
       end.
Proof.
  destruct d as [sn vn inum idate st va ta]. unfold finalize. simpl.
  destruct ta as [total|], va as [vat|]; simpl;
    try destruct (truthyNumber total); try destruct (truthyNumber vat); simpl;
    destruct (truthyStringProp inum); simpl;
    destruct (truthyStringProp sn), (truthyStringProp vn); simpl;
    try discriminate; intros [= <-]; simpl;
    repeat split; discriminate.
Qed.

(** The required-fields check is the only way to a rejection. *)
Lemma finalize_accepts (d : ZATCAData) :
  truthyStringProp (sellerName d) = true ->
  truthyStringProp (vatNumber d) = true ->
  totalAmount d <> None ->
  exists r, finalize now d = Some r.
Proof.
  destruct d as [sn vn inum idate st va ta]. unfold finalize. simpl.
  intros Hs Hv Ht.
  destruct ta as [total|]; [|congruence].
  destruct va as [vat|]; simpl;
    try destruct (truthyNumber total); try destruct (truthyNumber vat); simpl;
    destruct (truthyStringProp inum); simpl;
    rewrite Hs, Hv; simpl; eexists; reflexivity.
Qed.

Lemma finalize_rejects (d : ZATCAData) :
  truthyStringProp (sellerName d) = false
  \/ truthyStringProp (vatNumber d) = false
  \/ totalAmount d = None ->
  finalize now d = None.
Proof.
  intros H. destruct (finalize now d) as [r|] eqn:E; [|reflexivity].
  apply finalize_Some in E. destruct E as (Hs & Hv & Ht & _).
  destruct H as [H|[H|H]]; congruence.
Qed.

End Finalize.

(** Neither the check nor any property but the invoice number depends on
    the clock. *)
Lemma finalize_clock (now1 now2 : N) (d : ZATCAData) :
  (finalize now1 d = None /\ finalize now2 d = None)
  \/ exists r1 r2,
       finalize now1 d = Some r1 /\ finalize now2 d = Some r2
       /\ sellerName r1 = sellerName r2
       /\ vatNumber r1 = vatNumber r2
       /\ invoiceDate r1 = invoiceDate r2
       /\ totalAmount r1 = totalAmount r2
       /\ vatAmount r1 = vatAmount r2
       /\ subtotal r1 = subtotal r2
       /\ (truthyStringProp (invoiceNumber d) = false ->
           invoiceNumber r1 = Some (synthesizedInvoiceNumber now1)
           /\ invoiceNumber r2 = Some (synthesizedInvoiceNumber now2))
       /\ (truthyStringProp (invoiceNumber d) = true ->
           invoiceNumber r1 = invoiceNumber r2).
Proof.
  destruct (finalize now1 d) as [r1|] eqn:E1.
  - right. pose proof (finalize_Some now1 d r1 E1) as H1.
    destruct H1 as (Hs & Hv & Ht & H1).
    destruct (finalize_accepts now2 d Hs Hv Ht) as [r2 E2].
    pose proof (finalize_Some now2 d r2 E2) as H2.
    destruct H2 as (_ & _ & _ & H2).
    exists r1, r2. rewrite E2.
    destruct H1 as (a1 & b1 & c1 & d1 & e1 & f1 & g1).
    destruct H2 as (a2 & b2 & c2 & d2 & e2 & f2 & g2).
    split; [reflexivity|]. split; [reflexivity|].
    repeat (split; [congruence|]).
    split; intros Hnum.
    + rewrite f1, f2, Hnum. now split.
    + rewrite f1, f2, Hnum. reflexivity.
  - left. split; [reflexivity|].
    destruct (finalize now2 d) as [r2|] eqn:E2; [|reflexivity].
    pose proof (finalize_Some now2 d r2 E2) as (Hs & Hv & Ht & _).
    destruct (finalize_accepts now1 d Hs Hv Ht) as [r1 E]. congruence.
Qed.

(** The loop never assigns the invoice number. *)
Lemma interpret_invoiceNumber (fs : list field) (d : ZATCAData) :
  invoiceNumber (interpret fs d) = invoiceNumber d.
Proof. now rewrite interpret_fields. Qed.

(** *** The sample payloads decode as described *)

Example invoiceQR_stream : decode invoiceQR = encode invoiceFields.
Proof. vm_compute. reflexivity. Qed.

Example cutInvoiceQR_raw : atob cutInvoiceQR = None.
Proof. vm_compute. reflexivity. Qed.

Example longSellerQR_raw : atob longSellerQR = None.
Proof. vm_compute. reflexivity. Qed.

(** The end-to-end run on a complete invoice. *)
Example invoiceQR_parsed (now : N) :
  parseZATCAQR now invoiceQR
  = Returned (Some (mkData (Some (lit "Acme Trading Co."))
                           (Some (lit "300012345600003"))
                           (Some (synthesizedInvoiceNumber now))
                           (Some (lit "2024-03-15"))
                           (Some (ofInteger 100))
                           (Some (ofInteger 15))
                           (Some (ofInteger 115)))).
Proof.
  rewrite (parse_encode now invoiceQR invoiceFields []).
  - reflexivity.
  - vm_compute. reflexivity.
  - reflexivity.
Qed.

(** *** Required fields *)

(** A stream that lacks tag 1, tag 2 or tag 4, or whose last seller name
    or VAT number is empty, is rejected. *)
Lemma missing_required_rejected (now : N) (qrData : jsstring)
  (fs : list field) (rest : jsstring) :
  decode qrData = encode fs ++ rest ->
  stuck rest = true ->
  lastValue 1 fs = None \/ lastValue 1 fs = Some []
  \/ lastValue 2 fs = None \/ lastValue 2 fs = Some []
  \/ lastValue 4 fs = None ->
  parseZATCAQR now qrData = Returned None
  /\ isValidZATCAQR now qrData = Returned false.
Proof.
  intros Hdec Hst H.
  assert (E : parseZATCAQR now qrData = Returned None).
  { rewrite (parse_encode now qrData fs rest Hdec Hst). f_equal.
    apply finalize_rejects. rewrite interpret_fields. simpl.
    destruct H as [H|[H|[H|[H|H]]]]; rewrite H; simpl; auto. }
  split; [exact E|]. unfold isValidZATCAQR. now rewrite E.
Qed.

(** A returned record has a non-empty seller name, a non-empty VAT number
    and a total that was assigned. *)
Lemma returned_record_required (now : N) (qrData : jsstring)
  (r : ZATCAData) :
  parseZATCAQR now qrData = Returned (Some r) ->
  (exists s, sellerName r = Some s /\ s <> [])
  /\ (exists v, vatNumber r = Some v /\ v <> [])
  /\ (exists t, totalAmount r = Some t).
Proof.
  destruct (decompose (decode qrData)) as (fs & rest & Hdec & Hst).
  rewrite (parse_encode now qrData fs rest Hdec Hst).
  intros [= E]. apply finalize_Some in E.
  destruct E as (Hs & Hv & Ht & Es & Ev & _ & _ & Et & _).
  rewrite Es, Ev, Et.
  destruct (sellerName (interpret fs emptyData)) as [[|c s]|];
    try discriminate.
  destruct (vatNumber (interpret fs emptyData)) as [[|c' v]|];
    try discriminate.
  destruct (totalAmount (interpret fs emptyData)) as [t|]; [|congruence].
  repeat split; eexists; split; try reflexivity; discriminate.
Qed.

(** C1: an input that lacks tag 1, 2 or 4 is rejected
    ([missing_required_rejected]), but a tag 4 value that is not numeric
    is not: for the payload with seller [Acme], VAT number
    [300012345600003] and total [abc], [parseZATCAQR] returns a record
    whose [totalAmount] is NaN, and [isValidZATCAQR] answers [true]. *)
Theorem text_total_accepted (now : N) :
  decode textTotalQR
  = encode [ (1, lit "Acme"); (2, lit "300012345600003"); (4, lit "abc") ]
  /\ parseFloat (lit "abc") = S754_nan
  /\ parseZATCAQR now textTotalQR
     = Returned (Some (mkData (Some (lit "Acme"))
                              (Some (lit "300012345600003"))
                              (Some (synthesizedInvoiceNumber now))
                              None None None (Some S754_nan)))
  /\ isValidZATCAQR now textTotalQR = Returned true.
Proof.
  assert (Hdec : decode textTotalQR
                 = encode [ (1, lit "Acme"); (2, lit "300012345600003");
                            (4, lit "abc") ] ++ [])
    by (vm_compute; reflexivity).
  assert (E := parse_encode now textTotalQR _ [] Hdec eq_refl).
  split; [now rewrite Hdec, app_nil_r|].
  split; [reflexivity|].
  split; [exact E|].
  unfold isValidZATCAQR. now rewrite E.
Qed.

(** C2: a returned record always has a non-empty seller name, a non-empty
    VAT number and an assigned total ([returned_record_required]), but the
    total need not be well-formed: for the raw stream with seller [Acme],
    VAT number [300012345600003] and total [N/A] the parser returns a
    record whose [totalAmount] is NaN. *)
Theorem unavailable_total_returned (now : N) :
  exists r : ZATCAData,
    parseZATCAQR now unavailableTotalQR = Returned (Some r)
    /\ sellerName r = Some (lit "Acme")
    /\ vatNumber r = Some (lit "300012345600003")
    /\ totalAmount r = Some S754_nan
    /\ isNaN S754_nan = true.
Proof.
  assert (Hdec : decode unavailableTotalQR
                 = encode [ (1, lit "Acme"); (2, lit "300012345600003");
                            (4, lit "N/A") ] ++ [])
    by (vm_compute; reflexivity).
  assert (E := parse_encode now unavailableTotalQR _ [] Hdec eq_refl).
  eexists. split; [exact E|]. repeat split.
Qed.

(** *** The subtotal *)

(** The subtotal of a returned record is the difference of the total and
    the VAT amount when both were assigned and neither is NaN or zero,
    and is unset otherwise. *)
Lemma subtotal_derivation (now : N) (qrData : jsstring) (r : ZATCAData) :
  parseZATCAQR now qrData = Returned (Some r) ->
  subtotal r
  = match totalAmount r, vatAmount r with
    | Some total, Some vat =>
        if truthyNumber total && truthyNumber vat
        then Some (sub total vat) else None
    | _, _ => None
    end.
Proof.
  destruct (decompose (decode qrData)) as (fs & rest & Hdec & Hst).
  rewrite (parse_encode now qrData fs rest Hdec Hst).
  intros [= E]. apply finalize_Some in E.
  destruct E as (_ & _ & _ & _ & _ & _ & Ev & Et & _ & Est).
  rewrite Est, Ev, Et. rewrite interpret_fields. simpl.
  repeat match goal with
         | |- context [match ?x with _ => _ end] => destruct x
         end; reflexivity.
Qed.

(** [115.00 - 15.00] is exactly [100]. *)
Example subtotal_115_15 :
  sub (parseFloat (lit "115.00")) (parseFloat (lit "15.00")) = ofInteger 100.
Proof. vm_compute. reflexivity. Qed.

(** C6: the subtotal is the total minus the VAT amount when both are
    numbers other than zero ([subtotal_derivation], [invoiceQR_parsed]),
    but a VAT amount of zero counts as absent: for the zero-rated invoice
    with total [115.00] and VAT [0.00] the record has both amounts and no
    subtotal. *)
Theorem zero_vat_no_subtotal (now : N) :
  decode zeroVatQR
  = encode [ (1, lit "Acme"); (2, lit "300012345600003");
             (4, lit "115.00"); (5, lit "0.00") ]
  /\ parseZATCAQR now zeroVatQR
     = Returned (Some (mkData (Some (lit "Acme"))
                              (Some (lit "300012345600003"))
                              (Some (synthesizedInvoiceNumber now))
                              None None
                              (Some (S754_zero false))
                              (Some (ofInteger 115))))
  /\ sub (ofInteger 115) (S754_zero false) = ofInteger 115.
Proof.
  assert (Hdec : decode zeroVatQR
                 = encode [ (1, lit "Acme"); (2, lit "300012345600003");
                            (4, lit "115.00"); (5, lit "0.00") ] ++ [])
    by (vm_compute; reflexivity).
  assert (E := parse_encode now zeroVatQR _ [] Hdec eq_refl).
  split; [now rewrite Hdec, app_nil_r|].
  split; [exact E|].
  vm_compute. reflexivity.
Qed.

(** *** One step of the walk *)

(** C3 as stated fails on the raw fallback path: in [longSellerQR], which
    [atob] refuses, the walk reads the length 300 from one code unit and
    takes a seller name of 300 code units. *)
Lemma long_seller_header :
  wellFormed longSellerQR = true
  /\ charCodeAt (decode longSellerQR) 0 = Some 1
  /\ charCodeAt (decode longSellerQR) 1 = Some 300
  /\ parseZATCAQR 0 longSellerQR
     = Returned (Some (mkData (Some (repeat 65 300))
                              (Some (lit "300012345600003"))
                              (Some (lit "INV-0"))
                              None None None (Some (ofInteger 115)))).
Proof. vm_compute. repeat split. Qed.

(** C3 (amended): where two code units are left at the cursor, the walk
    reads the first as the tag and the second as the length, each one code
    unit: a value below 256 when [atob] decoded the payload and below
    65536 on the raw fallback path.  When the value fits, it is exactly
    [len] code units long (empty for a length of 0), it is assigned, and
    the walk goes on at [position + 2 + len]; when it does not fit, the
    walk ends. *)
Theorem walk_reads_one_field (qrData : jsstring) (fuel : nat) (position : N)
  (data : ZATCAData) :
  wellFormed qrData = true ->
  position + 1 < length (decode qrData) ->
  exists tag len : N,
    charCodeAt (decode qrData) position = Some tag
    /\ charCodeAt (decode qrData) (position + 1) = Some len
    /\ (tag < 65536 /\ len < 65536)
    /\ (atob qrData <> None -> tag < 256 /\ len < 256)
    /\ (position + 2 + len <= length (decode qrData) ->
        let value :=
          substring (decode qrData) (position + 2) (position + 2 + len) in
        length value = len
        /\ value = firstn (N.to_nat len)
                     (skipn (N.to_nat (position + 2)) (decode qrData))
        /\ (len = 0 -> value = [])
        /\ walk (S fuel) (decode qrData) position data
           = walk fuel (decode qrData) (position + 2 + len)
                  (assignField tag value data))
    /\ (length (decode qrData) < position + 2 + len ->
        walk (S fuel) (decode qrData) position data = Returned data).
Proof.
  intros Hwf Hpos.
  destruct (charCodeAt_inside (decode qrData) position) as [tag Etag]; [lia|].
  destruct (charCodeAt_inside (decode qrData) (position + 1)) as [len Elen];
    [lia|].
  exists tag, len.
  assert (Hstep : forall b : bool,
             (length (decode qrData) <? position + 2 + len) = b ->
             walk (S fuel) (decode qrData) position data
             = if b then Returned data
               else walk fuel (decode qrData) (position + 2 + len)
                      (assignField tag
                         (substring (decode qrData) (position + 2)
                            (position + 2 + len)) data)).
  { intros b Hb. cbn [walk]. rewrite Etag, Elen, Hb.
    replace (position <? length (decode qrData)) with true
      by compare_by_lia.
    replace (length (decode qrData) <=? position + 1) with false
      by compare_by_lia.
    reflexivity. }
  split; [exact Etag|]. split; [exact Elen|].
  split.
  { pose proof (decode_units qrData Hwf) as Hall.
    rewrite Forall_forall in Hall.
    split; apply Hall; eapply charCodeAt_In; eassumption. }
  split.
  { intros Hatob. unfold decode in Etag, Elen.
    destruct (atob qrData) as [decoded|] eqn:E; [|congruence].
    apply atob_bytes in E. rewrite Forall_forall in E.
    split; apply E; eapply charCodeAt_In; eassumption. }
  split.
  - intros Hfit. cbv zeta.
    split; [rewrite substring_length; lia|].
    split; [rewrite substring_slice by lia; do 2 f_equal; lia|].
    split.
    + intros ->. rewrite substring_slice by lia.
      replace (position + 2 + 0 - (position + 2)) with 0 by lia.
      reflexivity.
    + apply (Hstep false). apply N.ltb_ge. lia.
  - intros Hcut. apply (Hstep true). apply N.ltb_lt. lia.
Qed.

(** The first field of the sample invoice: tag 1, sixteen bytes. *)
Lemma walk_reads_one_field_witness :
  wellFormed invoiceQR = true
  /\ 0 + 1 < length (decode invoiceQR)
  /\ exists tag len : N,
       charCodeAt (decode invoiceQR) 0 = Some tag
       /\ charCodeAt (decode invoiceQR) (0 + 1) = Some len
       /\ tag < 256 /\ len < 256.
Proof.
  split; [reflexivity|]. split; [reflexivity|].
  destruct (walk_reads_one_field invoiceQR 0 0 emptyData eq_refl eq_refl)
    as (tag & len & Etag & Elen & _ & Hbytes & _).
  exists tag, len. split; [exact Etag|]. split; [exact Elen|].
  apply Hbytes. discriminate.
Defined.

(** *** Totality and truncation *)

(** C4: the parser returns on every input (the model neither runs out of
    loop iterations nor asks [charCodeAt] for an index outside the
    string), and on a stream of complete fields cut after [k] code units
    it returns what the fields lying wholly before the cut give. *)
Theorem parse_total_truncation_safe (now : N) (qrData : jsstring)
  (fs : list field) (k : nat) :
  (exists result, parseZATCAQR now qrData = Returned result)
  /\ (decode qrData = firstn k (encode fs) ->
      parseZATCAQR now qrData
      = Returned (finalize now (interpret (completeBefore k fs) emptyData))).
Proof.
  split.
  - destruct (decompose (decode qrData)) as (gs & rest & Hdec & Hst).
    eexists. exact (parse_encode now qrData gs rest Hdec Hst).
  - intros Hcut.
    destruct (truncate_encode fs k) as (rest & Heq & Hst).
    apply (parse_encode now qrData _ rest); [congruence | assumption].
Qed.

(** The sample invoice cut in the middle of its timestamp: only the seller
    name and the VAT number are read, and the record is rejected. *)
Lemma parse_total_truncation_safe_witness :
  decode cutInvoiceQR = firstn 40 (encode invoiceFields)
  /\ completeBefore 40 invoiceFields
     = [ (1, lit "Acme Trading Co."); (2, lit "300012345600003") ]
  /\ parseZATCAQR 0 cutInvoiceQR = Returned None.
Proof.
  split; [vm_compute; reflexivity|]. split; [reflexivity|].
  apply (proj2 (parse_total_truncation_safe 0 cutInvoiceQR invoiceFields 40)).
  vm_compute. reflexivity.
Defined.

(** *** A complete invoice is returned *)

(** C5: when the stream has fields with tags 1, 2 and 4 (for a repeated
    tag, its last field), the seller name and the VAT number are not
    empty and the total parses to a number, the parser returns a record
    with exactly these values. *)
Theorem required_fields_returned (now : N) (qrData : jsstring)
  (fs : list field) (rest v1 v2 v4 : jsstring) :
  decode qrData = encode fs ++ rest ->
  stuck rest = true ->
  lastValue 1 fs = Some v1 ->
  lastValue 2 fs = Some v2 ->
  lastValue 4 fs = Some v4 ->
  v1 <> [] ->
  v2 <> [] ->
  isNaN (parseFloat v4) = false ->
  exists r : ZATCAData,
    parseZATCAQR now qrData = Returned (Some r)
    /\ sellerName r = Some v1
    /\ vatNumber r = Some v2
    /\ (exists total, totalAmount r = Some total
                      /\ total = parseFloat v4 /\ isNaN total = false)
    /\ isValidZATCAQR now qrData = Returned true.
Proof.
  intros Hdec Hst H1 H2 H4 Hv1 Hv2 Hnum.
  pose proof (parse_encode now qrData fs rest Hdec Hst) as E.
  pose proof (interpret_fields fs emptyData) as Hd.
  rewrite H1, H2, H4 in Hd. simpl in Hd.
  destruct (finalize_accepts now (interpret fs emptyData)) as [r Er].
  - rewrite Hd. simpl. now destruct v1.
  - rewrite Hd. simpl. now destruct v2.
  - rewrite Hd. simpl. discriminate.
  - exists r. rewrite Er in E. split; [exact E|].
    apply finalize_Some in Er.
    destruct Er as (_ & _ & _ & Es & Ev & _ & _ & Et & _).
    rewrite Es, Ev, Et, Hd. simpl.
    split; [reflexivity|]. split; [reflexivity|].
    split; [now exists (parseFloat v4)|].
    unfold isValidZATCAQR. now rewrite E.
Qed.

(** The sample invoice: seller, VAT number and the total 115. *)
Lemma required_fields_returned_witness :
  exists r : ZATCAData,
    parseZATCAQR 0 invoiceQR = Returned (Some r)
    /\ sellerName r = Some (lit "Acme Trading Co.")
    /\ vatNumber r = Some (lit "300012345600003")
    /\ (exists total, totalAmount r = Some total
                      /\ total = ofInteger 115 /\ isNaN total = false)
    /\ isValidZATCAQR 0 invoiceQR = Returned true.
Proof.
  apply (required_fields_returned 0 invoiceQR invoiceFields []
           (lit "Acme Trading Co.") (lit "300012345600003") (lit "115.00")).
  - vm_compute. reflexivity.
  - reflexivity.
  - reflexivity.
  - reflexivity.
  - reflexivity.
  - discriminate.
  - discriminate.
  - reflexivity.
Defined.

(** *** The invoice date *)

(** C7: in a returned record the invoice date is the part of the last
    tag 3 value that stands before its first [T] (code unit 84). *)
Theorem invoice_date_is_date_part (now : N) (qrData : jsstring)
  (fs : list field) (rest date time : jsstring) (r : ZATCAData) :
  decode qrData = encode fs ++ rest ->
  stuck rest = true ->
  lastValue 3 fs = Some (date ++ 84 :: time) ->
  ~ In 84 date ->
  parseZATCAQR now qrData = Returned (Some r) ->
  invoiceDate r = Some date.
Proof.
  intros Hdec Hst H3 Hdate.
  rewrite (parse_encode now qrData fs rest Hdec Hst).
  intros [= E]. apply finalize_Some in E.
  destruct E as (_ & _ & _ & _ & _ & Ed & _).
  rewrite Ed, interpret_fields, H3. simpl.
  now apply split_first.
Qed.

(** The timestamp [2024-03-15T10:30:00Z] gives the date [2024-03-15]. *)
Lemma invoice_date_is_date_part_witness :
  lastValue 3 invoiceFields = Some (lit "2024-03-15T10:30:00Z")
  /\ exists r : ZATCAData,
       parseZATCAQR 0 invoiceQR = Returned (Some r)
       /\ invoiceDate r = Some (lit "2024-03-15").
Proof.
  split; [reflexivity|].
  eexists. split; [apply (invoiceQR_parsed 0)|].
  apply (invoice_date_is_date_part 0 invoiceQR invoiceFields []
           (lit "2024-03-15") (lit "10:30:00Z")).
  - vm_compute. reflexivity.
  - reflexivity.
  - reflexivity.
  - simpl. intros H.
    repeat (destruct H as [H|H]; [discriminate H|]). exact H.
  - apply (invoiceQR_parsed 0).
Defined.

(** *** Unknown tags *)

(** C8: a complete field whose tag is not one of 1..5, placed at any
    field boundary of a stream, does not change what the parser
    returns. *)
Theorem unknown_tag_ignored (now : N) (qrData qrData' : jsstring)
  (before : list field) (tag : N) (value after : jsstring) :
  recognized tag = false ->
  decode qrData = encode before ++ encodeField (tag, value) ++ after ->
  decode qrData' = encode before ++ after ->
  parseZATCAQR now qrData = parseZATCAQR now qrData'.
Proof.
  intros Htag Hdec Hdec'.
  destruct (decompose after) as (fs & rest & -> & Hst).
  rewrite (parse_encode now qrData (before ++ (tag, value) :: fs) rest).
  - rewrite (parse_encode now qrData' (before ++ fs) rest).
    + rewrite !interpret_app.
      change (interpret ((tag, value) :: fs) (interpret before emptyData))
        with (interpret fs
                (assignField tag value (interpret before emptyData))).
      now rewrite assignField_unrecognized.
    + now rewrite Hdec', encode_app, <- app_assoc.
    + assumption.
  - now rewrite Hdec, encode_app, encode_cons, <- !app_assoc.
  - assumption.
Qed.

(** The sample invoice with seven bytes under tag 99 after the VAT number
    parses as the sample invoice. *)
Lemma unknown_tag_ignored_witness :
  recognized 99 = false
  /\ parseZATCAQR 0 invoiceWithTag99QR = parseZATCAQR 0 invoiceQR.
Proof.
  split; [reflexivity|].
  apply (unknown_tag_ignored 0 invoiceWithTag99QR invoiceQR
           (firstn 2 invoiceFields) 99 [1; 2; 3; 4; 5; 6; 7]
           (encode (skipn 2 invoiceFields))).
  - reflexivity.
  - vm_compute. reflexivity.
  - vm_compute. reflexivity.
Defined.

(** *** Repeated calls *)

(** C9: two calls on the same string, at whatever times, both reject it or
    both return a record, and the two records agree on every property but
    the invoice number, which each call synthesizes from its own clock
    reading. *)
Theorem parse_deterministic_up_to_invoice_number (now1 now2 : N)
  (qrData : jsstring) :
  (parseZATCAQR now1 qrData = Returned None
   /\ parseZATCAQR now2 qrData = Returned None)
  \/ exists r1 r2 : ZATCAData,
       parseZATCAQR now1 qrData = Returned (Some r1)
       /\ parseZATCAQR now2 qrData = Returned (Some r2)
       /\ sellerName r1 = sellerName r2
       /\ vatNumber r1 = vatNumber r2
       /\ invoiceDate r1 = invoiceDate r2
       /\ totalAmount r1 = totalAmount r2
       /\ vatAmount r1 = vatAmount r2
       /\ subtotal r1 = subtotal r2
       /\ invoiceNumber r1 = Some (synthesizedInvoiceNumber now1)
       /\ invoiceNumber r2 = Some (synthesizedInvoiceNumber now2).
Proof.
  destruct (decompose (decode qrData)) as (fs & rest & Hdec & Hst).
  rewrite !(parse_encode _ qrData fs rest Hdec Hst).
  destruct (finalize_clock now1 now2 (interpret fs emptyData))
    as [[E1 E2]|(r1 & r2 & E1 & E2 & Hs & Hv & Hd & Ht & Ha & Hsub & Hnum & _)].
  - left. now rewrite E1, E2.
  - right. exists r1, r2. rewrite E1, E2.
    destruct Hnum as [N1 N2]; [now rewrite interpret_invoiceNumber|].
    repeat split; assumption.
Qed.

(** *** Repeated tags *)

Lemma lastValue_present (k t : N) (v : jsstring) (fs gs : list field) :
  lastValue k (fs ++ (t, v) :: gs) = None -> (t =? k) = false.
Proof.
  rewrite lastValue_app. cbn [lastValue].
  destruct (lastValue k gs); [discriminate|].
  destruct (t =? k); [discriminate | reflexivity].
Qed.

Lemma lastValue_drop_earlier (k t : N) (v0 v : jsstring)
  (pre mid post : list field) :
  lastValue k (pre ++ (t, v0) :: mid ++ (t, v) :: post)
  = lastValue k (pre ++ mid ++ (t, v) :: post).
Proof.
  rewrite !lastValue_app with (fs := pre). cbn [lastValue].
  destruct (lastValue k (mid ++ (t, v) :: post)) eqn:E; [reflexivity|].
  apply lastValue_present in E. now rewrite E.
Qed.

Lemma interpret_ext (fs gs : list field) (d : ZATCAData) :
  (forall k, lastValue k fs = lastValue k gs) ->
  interpret fs d = interpret gs d.
Proof.
  intros H. rewrite !interpret_fields. now rewrite !H.
Qed.

(** C10: when a tag occurs in an earlier field and again in a later one
    that is its last occurrence, the stream parses as it does without the
    earlier field, and a returned record holds, for a tag in 1..5, what
    the later value gives. *)
Theorem last_occurrence_wins (now : N) (qrData qrData' : jsstring)
  (pre mid post : list field) (tag : N) (earlier later rest : jsstring) :
  decode qrData
  = encode (pre ++ (tag, earlier) :: mid ++ (tag, later) :: post) ++ rest ->
  decode qrData' = encode (pre ++ mid ++ (tag, later) :: post) ++ rest ->
  stuck rest = true ->
  lastValue tag post = None ->
  parseZATCAQR now qrData = parseZATCAQR now qrData'
  /\ forall r : ZATCAData,
       parseZATCAQR now qrData = Returned (Some r) ->
       (tag = 1 -> sellerName r = Some later)
       /\ (tag = 2 -> vatNumber r = Some later)
       /\ (tag = 3 -> invoiceDate r = nth_error (split 84 later) 0)
       /\ (tag = 4 -> totalAmount r = Some (parseFloat later))
       /\ (tag = 5 -> vatAmount r = Some (parseFloat later)).
Proof.
  intros Hdec Hdec' Hst Hlast.
  rewrite (parse_encode now qrData _ rest Hdec Hst).
  rewrite (parse_encode now qrData' _ rest Hdec' Hst).
  split.
  - do 2 f_equal. apply interpret_ext. intros k.
    apply lastValue_drop_earlier.
  - intros r [= E]. apply finalize_Some in E.
    destruct E as (_ & _ & _ & Es & Ev & Ed & Ea & Et & _).
    rewrite Es, Ev, Ed, Ea, Et, interpret_fields. simpl.
    assert (H : lastValue tag
                  (pre ++ (tag, earlier) :: mid ++ (tag, later) :: post)
                = Some later).
    { rewrite lastValue_app. cbn [lastValue]. rewrite lastValue_app.
      cbn [lastValue]. rewrite Hlast, N.eqb_refl. reflexivity. }
    repeat split; intros ->; now rewrite H.
Qed.

(** The sample invoice preceded by the seller name [Old Name] parses as
    the sample invoice, with the seller [Acme Trading Co.]. *)
Lemma last_occurrence_wins_witness :
  parseZATCAQR 0 renamedSellerQR = parseZATCAQR 0 invoiceQR
  /\ exists r : ZATCAData,
       parseZATCAQR 0 renamedSellerQR = Returned (Some r)
       /\ sellerName r = Some (lit "Acme Trading Co.").
Proof.
  destruct (last_occurrence_wins 0 renamedSellerQR invoiceQR
              [] [] (skipn 1 invoiceFields) 1
              (lit "Old Name") (lit "Acme Trading Co.") [])
    as [Hsame Hfields].
  - vm_compute. reflexivity.
  - vm_compute. reflexivity.
  - reflexivity.
  - reflexivity.
  - split; [exact Hsame|].
    pose proof (eq_trans Hsame (invoiceQR_parsed 0)) as Hr.
    eexists. split; [exact Hr|].
    exact (proj1 (Hfields _ Hr) eq_refl).
Defined.

(** ** Further properties of the parser *)

(** *** The raw fallback *)

Section Fallback.

Lemma sextets_rejects (c : N) (s : jsstring) :
  In c s -> base64Value c = None -> sextets s = None.
Proof.
  induction s as [|d s IH]; simpl; [tauto|].
  intros [->|Hin] Hc.
  - now rewrite Hc.
  - rewrite (IH Hin Hc). now destruct (base64Value d).
Qed.

Lemma stripPadding_keeps (c : N) (s : jsstring) :
  In c s -> c <> 61 -> In c (stripPadding s).
Proof.
  intros Hin Hc. unfold stripPadding.
  destruct (rev s) as [|c1 [|c2 r]] eqn:E; [assumption| |].
  - assert (Hs : s = [c1]) by (now rewrite <- (rev_involutive s), E).
    subst s. destruct Hin as [->|[]].
    destruct (N.eqb_spec c 61); [contradiction | now left].
  - assert (Hs : s = rev r ++ [c2; c1]).
    { rewrite <- (rev_involutive s), E. simpl. now rewrite <- app_assoc. }
    destruct (N.eqb_spec c1 61) as [->|]; [|assumption].
    rewrite Hs in Hin. apply in_app_or in Hin.
    destruct (N.eqb_spec c2 61) as [->|].
    + destruct Hin as [Hin|[<-|[<-|[]]]]; [assumption | | ]; contradiction.
    + simpl. apply in_or_app.
      destruct Hin as [Hin|[<-|[<-|[]]]];
        [now left | right; now left | contradiction].
Qed.

(** [atob] throws on a string that holds a code unit outside the base64
    alphabet, other than white space and [=]. *)
Lemma atob_rejects (c : N) (data : jsstring) :
  In c data -> base64Value c = None -> isAsciiWhitespace c = false ->
  c <> 61 -> atob data = None.
Proof.
  intros Hin Hval Hws Hpad. unfold atob.
  set (data1 := filter _ data).
  assert (H1 : In c data1).
  { apply filter_In. split; [assumption | now rewrite Hws]. }
  set (data2 := if _ =? 0 then _ else _).
  assert (H2 : In c data2).
  { unfold data2. destruct (_ =? 0); [now apply stripPadding_keeps|assumption]. }
  destruct (_ =? 1); [reflexivity|].
  now rewrite (sextets_rejects c data2 H2 Hval).
Qed.

End Fallback.

(** X1: a TLV stream that was not base64-encoded and starts with a field
    of tag 1..5 is taken as it is ([atob] throws on it), and the parser
    returns what its complete fields give. *)
Theorem raw_stream_parsed_as_is (now : N) (tag : N) (value : jsstring)
  (fs : list field) (rest : jsstring) :
  recognized tag = true ->
  stuck rest = true ->
  decode (encode ((tag, value) :: fs) ++ rest)
  = encode ((tag, value) :: fs) ++ rest
  /\ parseZATCAQR now (encode ((tag, value) :: fs) ++ rest)
     = Returned (finalize now (interpret ((tag, value) :: fs) emptyData)).
Proof.
  intros Htag Hst.
  assert (Hraw : atob (encode ((tag, value) :: fs) ++ rest) = None).
  { unfold recognized in Htag. apply andb_prop in Htag.
    destruct Htag as [Hlo Hhi]. apply N.leb_le in Hlo, Hhi.
    apply (atob_rejects tag); [now left | | | lia].
    - unfold base64Value.
      replace (65 <=? tag) with false by compare_by_lia.
      replace (97 <=? tag) with false by compare_by_lia.
      replace (48 <=? tag) with false by compare_by_lia.
      replace (tag =? 43) with false by (symmetry; apply N.eqb_neq; lia).
      replace (tag =? 47) with false by (symmetry; apply N.eqb_neq; lia).
      reflexivity.
    - unfold isAsciiWhitespace.
      repeat match goal with
             | |- context [tag =? ?k] =>
                 replace (tag =? k) with false
                   by (symmetry; apply N.eqb_neq; lia)
             end.
      reflexivity. }
  assert (Hdec : decode (encode ((tag, value) :: fs) ++ rest)
                 = encode ((tag, value) :: fs) ++ rest)
    by (unfold decode; now rewrite Hraw).
  split; [exact Hdec|].
  now apply (parse_encode now _ _ rest).
Qed.

(** A raw stream with a seller, a VAT number and a total. *)
Lemma raw_stream_parsed_as_is_witness :
  recognized 1 = true
  /\ parseZATCAQR 7 (encode [ (1, lit "Acme"); (2, lit "300012345600003");
                              (4, lit "57.50") ] ++ [5])
     = Returned (Some (mkData (Some (lit "Acme"))
                              (Some (lit "300012345600003"))
                              (Some (lit "INV-7")) None None None
                              (Some (parseFloat (lit "57.50"))))).
Proof.
  split; [reflexivity|].
  exact (proj2 (raw_stream_parsed_as_is 7 1 (lit "Acme")
                  [ (2, lit "300012345600003"); (4, lit "57.50") ] [5]
                  eq_refl eq_refl)).
Defined.

(** *** The required-fields check *)

(** X2: the parser returns a record exactly when the last seller name
    (tag 1) and the last VAT number (tag 2) of the stream are not empty
    and the stream has a field with tag 4, whatever its text. *)
Theorem record_returned_iff (now : N) (qrData : jsstring)
  (fs : list field) (rest : jsstring) :
  decode qrData = encode fs ++ rest ->
  stuck rest = true ->
  (exists r, parseZATCAQR now qrData = Returned (Some r))
  <-> (exists v1 v2 v4,
         lastValue 1 fs = Some v1 /\ v1 <> []
         /\ lastValue 2 fs = Some v2 /\ v2 <> []
         /\ lastValue 4 fs = Some v4).
Proof.
  intros Hdec Hst.
  rewrite (parse_encode now qrData fs rest Hdec Hst).
  pose proof (interpret_fields fs emptyData) as Hd. simpl in Hd.
  split.
  - intros [r [= E]]. apply finalize_Some in E.
    destruct E as (Hs & Hv & Ht & _). rewrite Hd in Hs, Hv, Ht.
    simpl in Hs, Hv, Ht.
    destruct (lastValue 1 fs) as [[|c1 v1]|]; try discriminate.
    destruct (lastValue 2 fs) as [[|c2 v2]|]; try discriminate.
    destruct (lastValue 4 fs) as [v4|]; [|now contradiction Ht].
    exists (c1 :: v1), (c2 :: v2), v4. repeat split; discriminate.
  - intros (v1 & v2 & v4 & H1 & Hv1 & H2 & Hv2 & H4).
    destruct (finalize_accepts now (interpret fs emptyData)) as [r Er].
    + rewrite Hd, H1. simpl. now destruct v1.
    + rewrite Hd, H2. simpl. now destruct v2.
    + rewrite Hd, H4. simpl. discriminate.
    + exists r. now rewrite Er.
Qed.

Lemma record_returned_iff_witness :
  (exists r, parseZATCAQR 0 invoiceQR = Returned (Some r))
  <-> (exists v1 v2 v4,
         lastValue 1 invoiceFields = Some v1 /\ v1 <> []
         /\ lastValue 2 invoiceFields = Some v2 /\ v2 <> []
         /\ lastValue 4 invoiceFields = Some v4).
Proof.
  apply (record_returned_iff 0 invoiceQR invoiceFields []).
  - vm_compute. reflexivity.
  - reflexivity.
Defined.

(** X3: when the text of the last tag 4 field does not parse, the record
    is returned all the same, with NaN as its total and without a
    subtotal. *)
Theorem unparsable_total_kept (now : N) (qrData : jsstring)
  (fs : list field) (rest v1 v2 v4 : jsstring) :
  decode qrData = encode fs ++ rest ->
  stuck rest = true ->
  lastValue 1 fs = Some v1 -> v1 <> [] ->
  lastValue 2 fs = Some v2 -> v2 <> [] ->
  lastValue 4 fs = Some v4 ->
  isNaN (parseFloat v4) = true ->
  exists r,
    parseZATCAQR now qrData = Returned (Some r)
    /\ Zatca.totalAmount r = Some S754_nan
    /\ Zatca.subtotal r = None
    /\ isValidZATCAQR now qrData = Returned true.
Proof.
  intros Hdec Hst H1 Hv1 H2 Hv2 H4 Hnan.
  pose proof (parse_encode now qrData fs rest Hdec Hst) as E.
  pose proof (interpret_fields fs emptyData) as Hd.
  rewrite H1, H2, H4 in Hd. simpl in Hd.
  assert (Ev : parseFloat v4 = S754_nan)
    by (destruct (parseFloat v4); try discriminate; reflexivity).
  rewrite Ev in Hd.
  destruct (finalize_accepts now (interpret fs emptyData)) as [r Er].
  - rewrite Hd. simpl. now destruct v1.
  - rewrite Hd. simpl. now destruct v2.
  - rewrite Hd. simpl. discriminate.
  - exists r. rewrite Er in E. split; [exact E|].
    apply finalize_Some in Er.
    destruct Er as (_ & _ & _ & _ & _ & _ & _ & Et & _ & Est).
    rewrite Et, Est, Hd. simpl.
    split; [reflexivity|]. split.
    + now destruct (orElse (option_map parseFloat (lastValue 5 fs)) None).
    + unfold isValidZATCAQR. now rewrite E.
Qed.

Lemma unparsable_total_kept_witness :
  isNaN (parseFloat (lit "SAR 115")) = true
  /\ exists r,
       parseZATCAQR 0 (encode [ (1, lit "Acme"); (2, lit "300012345600003");
                                (4, lit "SAR 115"); (5, lit "15.00") ])
       = Returned (Some r)
       /\ Zatca.totalAmount r = Some S754_nan
       /\ Zatca.subtotal r = None
       /\ isValidZATCAQR 0
            (encode [ (1, lit "Acme"); (2, lit "300012345600003");
                      (4, lit "SAR 115"); (5, lit "15.00") ])
          = Returned true.
Proof.
  split; [reflexivity|].
  apply (unparsable_total_kept 0 _
           [ (1, lit "Acme"); (2, lit "300012345600003");
             (4, lit "SAR 115"); (5, lit "15.00") ] []
           (lit "Acme") (lit "300012345600003") (lit "SAR 115")).
  - vm_compute. reflexivity.
  - reflexivity.
  - reflexivity.
  - discriminate.
  - reflexivity.
  - discriminate.
  - reflexivity.
  - reflexivity.
Defined.

(** *** The invoice date *)

(** The first piece of a split holds no separator and is the string up to
    its first separator. *)
Lemma split_head (sep : N) (s : jsstring) :
  exists piece,
    nth_error (split sep s) 0 = Some piece
    /\ ~ In sep piece
    /\ (s = piece \/ exists after, s = piece ++ sep :: after).
Proof.
  induction s as [|c s (piece & Hp & Hnot & Hshape)]; simpl.
  - exists []. repeat split; auto.
  - destruct (N.eqb_spec c sep) as [->|Hne].
    + exists []. repeat split; auto. right. now exists s.
    + destruct (split sep s) as [|p ps]; [discriminate|].
      injection Hp as ->. exists (c :: piece). split; [reflexivity|]. split.
      * intros [H|H]; [congruence | contradiction].
      * destruct Hshape as [->|[after ->]]; [now left|].
        right. now exists after.
Qed.

(** X4: the invoice date of a returned record never holds a [T] (code
    unit 84): it is the last tag 3 value itself when that has no [T], and
    otherwise what stands before its first [T]. *)
Theorem invoice_date_without_time (now : N) (qrData : jsstring)
  (fs : list field) (rest date : jsstring) (r : ZATCAData) :
  decode qrData = encode fs ++ rest ->
  stuck rest = true ->
  parseZATCAQR now qrData = Returned (Some r) ->
  Zatca.invoiceDate r = Some date ->
  ~ In 84 date
  /\ exists v, lastValue 3 fs = Some v
               /\ (v = date \/ exists time, v = date ++ 84 :: time).
Proof.
  intros Hdec Hst.
  rewrite (parse_encode now qrData fs rest Hdec Hst).
  intros [= E] Hdate. apply finalize_Some in E.
  destruct E as (_ & _ & _ & _ & _ & Ed & _).
  rewrite Ed, interpret_fields in Hdate.
  cbn [Zatca.invoiceDate emptyData] in Hdate.
  destruct (lastValue 3 fs) as [v|]; [|discriminate].
  destruct (split_head 84 v) as (piece & Hp & Hnot & Hshape).
  rewrite Hp in Hdate. injection Hdate as <-.
  split; [assumption|]. now exists v.
Qed.

Lemma invoice_date_without_time_witness :
  exists r,
    parseZATCAQR 0 invoiceQR = Returned (Some r)
    /\ Zatca.invoiceDate r = Some (lit "2024-03-15")
    /\ ~ In 84 (lit "2024-03-15")
    /\ exists v, lastValue 3 invoiceFields = Some v
                 /\ (v = lit "2024-03-15"
                     \/ exists time, v = lit "2024-03-15" ++ 84 :: time).
Proof.
  eexists. split; [apply (invoiceQR_parsed 0)|]. split; [reflexivity|].
  refine (invoice_date_without_time 0 invoiceQR invoiceFields []
            (lit "2024-03-15") _ _ eq_refl (invoiceQR_parsed 0) eq_refl).
  vm_compute. reflexivity.
Defined.

(** *** Lengths on the base64 path *)

Lemma lastValue_In (tag : N) (fs : list field) (v : jsstring) :
  lastValue tag fs = Some v -> In (tag, v) fs.
Proof.
  induction fs as [|[t w] fs IH]; simpl; [discriminate|].
  destruct (lastValue tag fs) as [u|].
  - intros [= <-]. right. now apply IH.
  - destruct (N.eqb_spec t tag) as [->|]; [|discriminate].
    intros [= <-]. now left.
Qed.

Lemma length_In_encode (f : field) (fs : list field) :
  In f fs -> In (length (snd f)) (encode fs).
Proof.
  intros Hin. unfold encode. apply in_flat_map. exists f.
  split; [assumption|]. unfold encodeField. right. now left.
Qed.

(** X5: when the scanned string is base64 text, the seller name, the VAT
    number and the invoice date of a returned record are each shorter than
    256 code units, the most a one-byte length can announce. *)
Theorem base64_fields_fit_a_byte (now : N) (qrData : jsstring)
  (r : ZATCAData) :
  atob qrData <> None ->
  parseZATCAQR now qrData = Returned (Some r) ->
  (forall s, Zatca.sellerName r = Some s -> length s < 256)
  /\ (forall v, Zatca.vatNumber r = Some v -> length v < 256)
  /\ (forall d, Zatca.invoiceDate r = Some d -> length d < 256).
Proof.
  intros Hatob.
  destruct (decompose (decode qrData)) as (fs & rest & Hdec & Hst).
  rewrite (parse_encode now qrData fs rest Hdec Hst).
  intros [= E]. apply finalize_Some in E.
  destruct E as (_ & _ & _ & Es & Ev & Ed & _).
  assert (Hbyte : forall t v, lastValue t fs = Some v -> length v < 256).
  { intros t v Hl. apply lastValue_In, length_In_encode in Hl. simpl in Hl.
    unfold decode in Hdec.
    destruct (atob qrData) as [decoded|] eqn:Ea; [|congruence].
    apply atob_bytes in Ea. rewrite Forall_forall in Ea. apply Ea.
    rewrite Hdec. apply in_or_app. now left. }
  rewrite Es, Ev, Ed, interpret_fields.
  cbn [Zatca.sellerName Zatca.vatNumber Zatca.invoiceDate emptyData orElse].
  split; [|split].
  - intros s Hs. destruct (lastValue 1 fs) eqn:H1; [|discriminate].
    injection Hs as <-. now apply (Hbyte 1).
  - intros v Hv. destruct (lastValue 2 fs) eqn:H2; [|discriminate].
    injection Hv as <-. now apply (Hbyte 2).
  - intros d Hd. destruct (lastValue 3 fs) as [v|] eqn:H3; [|discriminate].
    destruct (split_head 84 v) as (piece & Hp & _ & Hshape).
    rewrite Hp in Hd. injection Hd as <-.
    pose proof (Hbyte 3 v H3) as Hlen.
    destruct Hshape as [->|[time ->]]; [assumption|].
    rewrite length_app in Hlen. lia.
Qed.

Lemma base64_fields_fit_a_byte_witness :
  atob invoiceQR <> None
  /\ exists r,
       parseZATCAQR 0 invoiceQR = Returned (Some r)
       /\ (forall s, Zatca.sellerName r = Some s -> length s < 256)
       /\ (forall v, Zatca.vatNumber r = Some v -> length v < 256)
       /\ (forall d, Zatca.invoiceDate r = Some d -> length d < 256).
Proof.
  split; [discriminate|].
  eexists. split; [apply (invoiceQR_parsed 0)|].
  apply (base64_fields_fit_a_byte 0 invoiceQR).
  - discriminate.
  - apply (invoiceQR_parsed 0).
Defined.

(** *** The subtotal *)

(** X6: a returned record has a subtotal exactly when its total and its
    VAT amount were both assigned and neither is NaN or zero; the
    subtotal is then their difference. *)
Theorem subtotal_only_from_nonzero_amounts (now : N) (qrData : jsstring)
  (r : ZATCAData) :
  parseZATCAQR now qrData = Returned (Some r) ->
  match Zatca.subtotal r with
  | Some s =>
      exists total vat,
        Zatca.totalAmount r = Some total /\ Zatca.vatAmount r = Some vat
        /\ truthyNumber total = true /\ truthyNumber vat = true
        /\ s = sub total vat
  | None =>
      truthyNumberProp (Zatca.totalAmount r)
      && truthyNumberProp (Zatca.vatAmount r) = false
  end.
Proof.
  intros Hr. rewrite (subtotal_derivation now qrData r Hr).
  destruct (Zatca.totalAmount r) as [total|]; [|reflexivity].
  destruct (Zatca.vatAmount r) as [vat|]; simpl.
  - destruct (truthyNumber total) eqn:Et, (truthyNumber vat) eqn:Ev;
      simpl; try reflexivity.
    exists total, vat. now repeat split.
  - apply andb_false_r.
Qed.

Lemma subtotal_only_from_nonzero_amounts_witness :
  exists total vat,
    Some (ofInteger 115) = Some total /\ Some (ofInteger 15) = Some vat
    /\ truthyNumber total = true /\ truthyNumber vat = true
    /\ ofInteger 100 = sub total vat.
Proof.
  exact (subtotal_only_from_nonzero_amounts 0 invoiceQR _ (invoiceQR_parsed 0)).
Defined.

(** *** Concatenation *)

(** X7: walking a run of complete fields followed by any string [s] is
    walking [s] alone, starting from the record the fields leave. *)
Theorem walk_concat (fs : list field) (s : jsstring) (data : ZATCAData) :
  walk (S (List.length (encode fs ++ s))) (encode fs ++ s) 0 data
  = walk (S (List.length s)) s 0 (interpret fs data).
Proof.
  destruct (decompose s) as (gs & rest & -> & Hst).
  pose proof (length_encode gs) as Hgs.
  pose proof (length_encode (fs ++ gs)) as Hall.
  rewrite (walk_encode gs _ [] rest (interpret fs data) Hst)
    by (rewrite List.length_app; lia).
  rewrite app_assoc, <- encode_app.
  rewrite (walk_encode (fs ++ gs) _ [] rest data Hst)
    by (rewrite (List.length_app (encode (fs ++ gs))); lia).
  now rewrite interpret_app.
Qed.

(** *** The order of the fields *)

Section Order.

Lemma lastValue_unique (k : N) (v : jsstring) (fs : list field) :
  NoDup (map fst fs) -> In (k, v) fs -> lastValue k fs = Some v.
Proof.
  induction fs as [|[t w] fs IH]; simpl; [tauto|].
  intros Hnd Hin. inversion Hnd as [|? ? Hfresh Hnd']; subst.
  destruct Hin as [[= -> ->]|Hin].
  - destruct (lastValue k fs) as [u|] eqn:E.
    + exfalso. apply Hfresh. apply lastValue_In in E.
      change k with (fst (k, u)). now apply in_map.
    + now rewrite N.eqb_refl.
  - now rewrite (IH Hnd' Hin).
Qed.

Lemma lastValue_permutation (fs gs : list field) :
  Permutation fs gs -> NoDup (map fst fs) ->
  forall k, lastValue k fs = lastValue k gs.
Proof.
  intros Hperm Hnd k.
  assert (Hnd' : NoDup (map fst gs))
    by (eapply Permutation_NoDup; [apply Permutation_map; eassumption|assumption]).
  destruct (lastValue k fs) as [v|] eqn:E.
  - symmetry. apply lastValue_unique; [assumption|].
    eapply Permutation_in; [eassumption|]. now apply lastValue_In.
  - destruct (lastValue k gs) as [u|] eqn:E'; [|reflexivity].
    apply lastValue_In in E'.
    apply (Permutation_in _ (Permutation_sym Hperm)) in E'.
    apply (lastValue_unique k u fs Hnd) in E'. congruence.
Qed.

End Order.

(** X8: when no tag occurs twice, the order of the fields in the stream
    does not matter: two streams with the same fields in different orders
    get the same answer. *)
Theorem field_order_irrelevant (now : N) (qrData qrData' : jsstring)
  (fs gs : list field) (rest rest' : jsstring) :
  Permutation fs gs ->
  NoDup (map fst fs) ->
  decode qrData = encode fs ++ rest -> stuck rest = true ->
  decode qrData' = encode gs ++ rest' -> stuck rest' = true ->
  parseZATCAQR now qrData = parseZATCAQR now qrData'.
Proof.
  intros Hperm Hnd Hdec Hst Hdec' Hst'.
  rewrite (parse_encode now qrData fs rest Hdec Hst).
  rewrite (parse_encode now qrData' gs rest' Hdec' Hst').
  do 2 f_equal. apply interpret_ext. now apply lastValue_permutation.
Qed.

(** The sample invoice with its fields in reverse order. *)
Lemma field_order_irrelevant_witness :
  parseZATCAQR 0 invoiceQR = parseZATCAQR 0 (encode (rev invoiceFields)).
Proof.
  apply (field_order_irrelevant 0 invoiceQR (encode (rev invoiceFields))
           invoiceFields (rev invoiceFields) [] []).
  - apply Permutation_rev.
  - simpl. repeat constructor; simpl; intros H;
      repeat (destruct H as [H|H]; [discriminate H|]); exact H.
  - vm_compute. reflexivity.
  - reflexivity.
  - vm_compute. reflexivity.
  - reflexivity.
Defined.

(** *** The generated invoice number *)

Section InvoiceNumber.

Lemma uintCodes_injective (d1 : Decimal.uint) :
  forall d2, uintCodes d1 = uintCodes d2 -> d1 = d2.
Proof.
  induction d1; intros d2 H; destruct d2; simpl in H;
    try discriminate H; try reflexivity;
    injection H as H; f_equal; now apply IHd1.
Qed.

Lemma synthesizedInvoiceNumber_injective (now1 now2 : N) :
  synthesizedInvoiceNumber now1 = synthesizedInvoiceNumber now2 ->
  now1 = now2.
Proof.
  unfold synthesizedInvoiceNumber. intros H.
  apply app_inv_head, uintCodes_injective in H.
  rewrite <- (DecimalN.Unsigned.of_to now1), <- (DecimalN.Unsigned.of_to now2).
  now rewrite H.
Qed.

End InvoiceNumber.

(** X9: the invoice number of a returned record is [INV-] followed by the
    clock reading, whatever the payload holds, so two calls on the same
    string at different clock readings return records with different
    invoice numbers. *)
Theorem invoice_number_follows_clock (now1 now2 : N) (qrData : jsstring)
  (r1 r2 : ZATCAData) :
  now1 <> now2 ->
  parseZATCAQR now1 qrData = Returned (Some r1) ->
  parseZATCAQR now2 qrData = Returned (Some r2) ->
  Zatca.invoiceNumber r1 = Some (synthesizedInvoiceNumber now1)
  /\ Zatca.invoiceNumber r2 = Some (synthesizedInvoiceNumber now2)
  /\ Zatca.invoiceNumber r1 <> Zatca.invoiceNumber r2.
Proof.
  intros Hne.
  destruct (decompose (decode qrData)) as (fs & rest & Hdec & Hst).
  rewrite !(parse_encode _ qrData fs rest Hdec Hst).
  intros [= E1] [= E2].
  apply finalize_Some in E1, E2.
  destruct E1 as (_ & _ & _ & _ & _ & _ & _ & _ & N1 & _).
  destruct E2 as (_ & _ & _ & _ & _ & _ & _ & _ & N2 & _).
  rewrite interpret_invoiceNumber in N1, N2. simpl in N1, N2.
  split; [exact N1|]. split; [exact N2|].
  rewrite N1, N2. intros H.
  assert (H' : synthesizedInvoiceNumber now1 = synthesizedInvoiceNumber now2)
    by congruence.
  now apply synthesizedInvoiceNumber_injective in H'.
Qed.

Lemma invoice_number_follows_clock_witness :
  1700000000000 <> 1700000000001
  /\ exists r1 r2,
       parseZATCAQR 1700000000000 invoiceQR = Returned (Some r1)
       /\ parseZATCAQR 1700000000001 invoiceQR = Returned (Some r2)
       /\ Zatca.invoiceNumber r1 = Some (lit "INV-1700000000000")
       /\ Zatca.invoiceNumber r2 = Some (lit "INV-1700000000001")
       /\ Zatca.invoiceNumber r1 <> Zatca.invoiceNumber r2.
Proof.
  split; [discriminate|].
  eexists. eexists.
  split; [apply (invoiceQR_parsed 1700000000000)|].
  split; [apply (invoiceQR_parsed 1700000000001)|].
  apply (invoice_number_follows_clock 1700000000000 1700000000001
           invoiceQR).
  - discriminate.
  - apply (invoiceQR_parsed 1700000000000).
  - apply (invoiceQR_parsed 1700000000001).
Defined.

(** ** The record of a scan *)

(** X10: the record [processQRCode] builds keeps the scanned string and
    the session.  It is marked invalid exactly when the parser rejects the
    string, and then all seven invoice columns are null; when it is marked
    valid, the seller name and the VAT number are the parser's, neither
    null nor empty, and the invoice number is the generated one. *)
Theorem scanned_record_columns (numberToString : number -> jsstring)
  (now : N) (session qrData : jsstring) :
  exists q : Scanner.InsertScannedQR,
    Scanner.scannedRecord numberToString now session qrData = Returned q
    /\ Scanner.rawData q = qrData
    /\ Scanner.sessionId q = session
    /\ match Scanner.status q with
       | Scanner.invalid =>
           parseZATCAQR now qrData = Returned None
           /\ Scanner.sellerName q = None
           /\ Scanner.vatNumber q = None
           /\ Scanner.invoiceNumber q = None
           /\ Scanner.invoiceDate q = None
           /\ Scanner.subtotal q = None
           /\ Scanner.vatAmount q = None
           /\ Scanner.totalAmount q = None
       | Scanner.valid =>
           exists (r : ZATCAData) (s v : jsstring),
             parseZATCAQR now qrData = Returned (Some r)
             /\ Zatca.sellerName r = Some s /\ s <> []
             /\ Scanner.sellerName q = Some s
             /\ Zatca.vatNumber r = Some v /\ v <> []
             /\ Scanner.vatNumber q = Some v
             /\ Scanner.invoiceNumber q = Some (synthesizedInvoiceNumber now)
       end.
Proof.
  destruct (decompose (decode qrData)) as (fs & rest & Hdec & Hst).
  pose proof (parse_encode now qrData fs rest Hdec Hst) as E.
  unfold Scanner.scannedRecord. rewrite E.
  eexists. split; [reflexivity|]. split; [reflexivity|]. split; [reflexivity|].
  destruct (finalize now (interpret fs emptyData)) as [r|] eqn:Er; simpl.
  - destruct (returned_record_required now qrData r E)
      as ((s & Hs & Hs') & (v & Hv & Hv') & _).
    apply finalize_Some in Er.
    destruct Er as (_ & _ & _ & _ & _ & _ & _ & _ & Hn & _).
    rewrite interpret_invoiceNumber in Hn. simpl in Hn.
    exists r, s, v. rewrite Hs, Hv, Hn.
    destruct s as [|c s]; [congruence|]. destruct v as [|c' v]; [congruence|].
    repeat split; congruence.
  - repeat split.
Qed.

(** ** Amount texts *)

Section Amounts.

Lemma span_digits (ds tail : jsstring) :
  forallb isDigit ds = true ->
  match tail with [] => True | c :: _ => isDigit c = false end ->
  span isDigit (ds ++ tail) = (ds, tail).
Proof.
  intros Hds Htail. induction ds as [|d ds IH]; simpl.
  - destruct tail as [|c t]; [reflexivity|]. simpl. now rewrite Htail.
  - simpl in Hds. apply andb_prop in Hds. destruct Hds as [Hd Hds].
    now rewrite Hd, (IH Hds).
Qed.

Lemma digit_not_space (d : N) :
  isDigit d = true -> isStrWhiteSpaceChar d = false.
Proof.
  unfold isDigit, isStrWhiteSpaceChar. intros H.
  apply andb_prop in H. destruct H as [Hlo Hhi].
  apply N.leb_le in Hlo, Hhi.
  replace (d <=? 13) with false by compare_by_lia.
  replace (8192 <=? d) with false by compare_by_lia.
  rewrite !andb_false_r, !andb_false_l.
  repeat match goal with
         | |- context [d =? ?k] =>
             replace (d =? k) with false by (symmetry; apply N.eqb_neq; lia)
         end.
  reflexivity.
Qed.

Lemma startsWith_head (p c : N) (prefix s : jsstring) :
  p <> c -> startsWith (p :: prefix) (c :: s) = false.
Proof.
  intros Hne. cbn [startsWith].
  now replace (p =? c) with false by (symmetry; now apply N.eqb_neq).
Qed.

(** What [parseFloat] makes of digits, a point and digits, followed by
    nothing or by text that neither extends the fraction nor starts an
    exponent: the number nearest to the decimal written. *)
Lemma parseFloat_decimal (d : N) (ds frac tail : jsstring) :
  isDigit d = true ->
  forallb isDigit ds = true ->
  forallb isDigit frac = true ->
  match tail with
  | [] => True
  | c :: _ => isDigit c = false /\ c <> 101 /\ c <> 69
  end ->
  parseFloat (d :: ds ++ 46 :: frac ++ tail)
  = roundDecimal false (digitsValue (d :: ds ++ frac))
      (- Z.of_nat (List.length frac)).
Proof.
  intros Hd Hds Hfrac Htail.
  assert (Hbounds : 48 <= d <= 57).
  { unfold isDigit in Hd. apply andb_prop in Hd. destruct Hd as [H1 H2].
    apply N.leb_le in H1, H2. lia. }
  unfold parseFloat. cbn [span]. rewrite (digit_not_space d Hd).
  replace (d =? 45) with false by (symmetry; apply N.eqb_neq; lia).
  replace (d =? 43) with false by (symmetry; apply N.eqb_neq; lia).
  unfold scanUnsigned.
  change (lit "Infinity") with (73 :: lit "nfinity").
  rewrite startsWith_head by lia.
  change (d :: ds ++ 46 :: frac ++ tail)
    with ((d :: ds) ++ 46 :: frac ++ tail).
  rewrite (span_digits (d :: ds) (46 :: frac ++ tail)).
  - change (46 =? 46) with true. cbv iota beta.
    rewrite (span_digits frac tail).
    + replace (scanExponent tail) with 0%Z.
      * destruct frac; reflexivity.
      * destruct tail as [|c t]; [reflexivity|].
        destruct Htail as (_ & H101 & H69). unfold scanExponent.
        replace (c =? 101) with false by (symmetry; now apply N.eqb_neq).
        replace (c =? 69) with false by (symmetry; now apply N.eqb_neq).
        reflexivity.
    + assumption.
    + destruct tail; [exact I | tauto].
  - simpl. now rewrite Hd, Hds.
  - reflexivity.
Qed.

End Amounts.

(** X11: a total written as digits, a point and digits is stored as the
    number nearest to that decimal, also when other text follows it (a
    currency, a second point): what follows the amount is dropped. *)
Theorem amount_suffix_dropped (now : N) (qrData : jsstring)
  (fs : list field) (rest : jsstring) (d : N) (ds frac tail : jsstring)
  (r : ZATCAData) :
  decode qrData = encode fs ++ rest ->
  stuck rest = true ->
  lastValue 4 fs = Some (d :: ds ++ 46 :: frac ++ tail) ->
  isDigit d = true ->
  forallb isDigit ds = true ->
  forallb isDigit frac = true ->
  match tail with
  | [] => True
  | c :: _ => isDigit c = false /\ c <> 101 /\ c <> 69
  end ->
  parseZATCAQR now qrData = Returned (Some r) ->
  Zatca.totalAmount r
  = Some (roundDecimal false (digitsValue (d :: ds ++ frac))
            (- Z.of_nat (List.length frac))).
Proof.
  intros Hdec Hst H4 Hd Hds Hfrac Htail.
  rewrite (parse_encode now qrData fs rest Hdec Hst).
  intros [= E]. apply finalize_Some in E.
  destruct E as (_ & _ & _ & _ & _ & _ & _ & Et & _).
  rewrite Et, interpret_fields, H4.
  cbn [Zatca.totalAmount option_map orElse].
  now rewrite (parseFloat_decimal d ds frac tail Hd Hds Hfrac Htail).
Qed.

(** The total [115.00 SAR] is stored as 115. *)
Lemma amount_suffix_dropped_witness :
  exists r,
    parseZATCAQR 0 (encode [ (1, lit "Acme"); (2, lit "300012345600003");
                             (4, lit "115.00 SAR") ])
    = Returned (Some r)
    /\ Zatca.totalAmount r = Some (ofInteger 115).
Proof.
  eexists. split.
  - apply (parse_encode 0 _ [ (1, lit "Acme"); (2, lit "300012345600003");
                              (4, lit "115.00 SAR") ] []);
      [vm_compute; reflexivity | reflexivity].
  - refine (amount_suffix_dropped 0
              (encode [ (1, lit "Acme"); (2, lit "300012345600003");
                        (4, lit "115.00 SAR") ])
              [ (1, lit "Acme"); (2, lit "300012345600003");
                (4, lit "115.00 SAR") ]
              [] 49 (lit "15") (lit "00")
              (lit " SAR") _ _ eq_refl eq_refl eq_refl eq_refl eq_refl _ _).
    + vm_compute. reflexivity.
    + split; [reflexivity|]. split; discriminate.
    + apply (parse_encode 0 _ [ (1, lit "Acme"); (2, lit "300012345600003");
                                (4, lit "115.00 SAR") ] []);
        [vm_compute; reflexivity | reflexivity].
Defined.

(** ** White space in the base64 text *)

(** X12: when the scanned string is base64 text, ASCII white space in it
    (tab, line feed, form feed, carriage return, space) does not matter:
    two strings that agree once their white space is dropped get the same
    answer. *)
Theorem base64_white_space_ignored (now : N) (qrData qrData' : jsstring) :
  filter (fun c => negb (isAsciiWhitespace c)) qrData
  = filter (fun c => negb (isAsciiWhitespace c)) qrData' ->
  atob qrData <> None ->
  atob qrData' = atob qrData
  /\ parseZATCAQR now qrData' = parseZATCAQR now qrData.
Proof.
  intros Hsame Hok.
  assert (E : atob qrData' = atob qrData)
    by (unfold atob; now rewrite Hsame).
  split; [exact E|].
  unfold parseZATCAQR, decode. rewrite E.
  destruct (atob qrData); [reflexivity | contradiction].
Qed.

(** The sample invoice with a space and a line feed inside its text. *)
Lemma base64_white_space_ignored_witness :
  parseZATCAQR 0 (lit "ARBB" ++ 32 :: 10 :: skipn 4 invoiceQR)
  = parseZATCAQR 0 invoiceQR.
Proof.
  apply (base64_white_space_ignored 0 invoiceQR
           (lit "ARBB" ++ 32 :: 10 :: skipn 4 invoiceQR)).
  - vm_compute. reflexivity.
  - discriminate.
Defined.
